(** * ente: plan selection outcome and mailing list sync

    A shallow embedding of three pieces of the ente sources:

    - [planSelectionOutcome] of
      [web/packages/new/photos/components/PlanSelector.tsx], the pure
      decision of what happens when the user selects a paid plan, with
      the period toggle, the plan rows and [handlePlanSelect] around it;
    - the [MailingListsController] of museum (Go), which keeps the Zoho
      Campaigns mailing list in sync with customer emails: its
      constructor, [Subscribe], [Unsubscribe], [shouldSkip] and
      [doListAction];
    - the import service of [src/services/importService.ts], the bridge
      to the Electron side for pending uploads.

    TypeScript and Go strings are modelled by [string] (a Go string is a
    sequence of bytes, and an [ascii] is one byte).  JavaScript numbers
    that hold integers are modelled in [Z], with the rounding to 53 bits
    written out.  The mutable controller, the log and the outbound
    requests are threaded through a state monad. *)

From Stdlib Require Import ZArith NArith String Ascii List Bool Lia Permutation.
From ExtLib Require Import Structures.Monad Structures.MonadState.
From ExtLib Require Import Data.Monads.StateMonad.
Import ListNotations.
Import MonadNotation.

Local Open Scope string_scope.

(* ===================================================================== *)
(** * The plan selector (TypeScript)                                      *)
(* ===================================================================== *)

Module PlanSelector.

(** The fields of [Subscription] (declared in
    [@/new/photos/services/user-details]) that [planSelectionOutcome]
    reads.  [expiryTime] is an epoch instant in microseconds, as the
    integer the server sent. *)
Record Subscription : Type := mkSubscription
  { productID : string;
    expiryTime : Z;
    paymentProvider : string }.

(** The four string literals the function returns. *)
Inductive Outcome : Type :=
| buyPlan
| updateSubscriptionToPlan
| cancelOnMobile
| contactSupport.

(** JavaScript numbers are binary64 floating point values.
    [roundMagnitude m] is the non-negative integer [m] rounded to the
    nearest such value, ties to the even significand: up to 53 bits are
    kept, and of a longer integer the low [e] bits are rounded away.
    (Magnitudes from 2^1024 on, which round to infinity, are outside this
    model; epoch times in microseconds stay below 10^19.) *)
Definition roundMagnitude (m : Z) : Z :=
  let e := (Z.log2 m + 1 - 53)%Z in
  if (e <=? 0)%Z then m
  else
    let q := (m / 2 ^ e)%Z in
    let r := (m mod 2 ^ e)%Z in
    let half := (2 ^ (e - 1))%Z in
    if (half <? r)%Z || ((r =? half)%Z && Z.odd q)
    then ((q + 1) * 2 ^ e)%Z
    else (q * 2 ^ e)%Z.

(** The value a JavaScript number has when it holds the integer [z]. *)
Definition toDouble (z : Z) : Z :=
  if (z <? 0)%Z then (- roundMagnitude (- z))%Z else roundMagnitude z.

(** [planSelectionOutcome].  [dateNow] is the integer [Date.now()]
    returns (epoch milliseconds, at most 8.64e15 in magnitude, so held
    exactly); the clock is read once.  [None] is the [undefined]
    subscription.  The comparison is between two JavaScript numbers: the
    expiry time as the number holds it, and the product
    [Date.now() * 1000] as floating point multiplication rounds it. *)
Definition planSelectionOutcome
    (dateNow : Z) (subscription : option Subscription) : Outcome :=
  match subscription with
  | None => buyPlan
  | Some subscription =>
      if (productID subscription =? "free")%string then buyPlan
      else if (toDouble (expiryTime subscription) <? toDouble (dateNow * 1000))%Z
           then buyPlan
      else if (paymentProvider subscription =? "stripe")%string
           then updateSubscriptionToPlan
      else if (paymentProvider subscription =? "appstore")%string
              || (paymentProvider subscription =? "playstore")%string
           then cancelOnMobile
      else contactSupport
  end.

(** A subscription is expired when its expiry lies strictly before the
    current time, both in microseconds. *)
Definition expired (dateNow : Z) (s : Subscription) : Prop :=
  (expiryTime s < dateNow * 1000)%Z.

(** The same test on the two numbers the code compares. *)
Definition expiredAsComputed (dateNow : Z) (s : Subscription) : Prop :=
  (toDouble (expiryTime s) < toDouble (dateNow * 1000))%Z.

End PlanSelector.

(* ===================================================================== *)
(** * Go's [net/url] escaping                                             *)
(* ===================================================================== *)

(** [url.QueryEscape] and [url.PathEscape] are the standard library's
    [escape] at the modes [encodeQueryComponent] and [encodePathSegment];
    [url.QueryUnescape] and [url.PathUnescape] are [unescape] at the same
    modes.  Only these two modes of the library are modelled. *)

Module URL.

Inductive encoding : Type :=
| encodePathSegment
| encodeQueryComponent.

Definition byte_in (lo hi c : ascii) : bool :=
  (N_of_ascii lo <=? N_of_ascii c)%N && (N_of_ascii c <=? N_of_ascii hi)%N.

Definition is_alnum (c : ascii) : bool :=
  byte_in "a" "z" c || byte_in "A" "Z" c || byte_in "0" "9" c.

Definition is_mark (c : ascii) : bool :=
  (c =? "-")%char || (c =? "_")%char || (c =? ".")%char || (c =? "~")%char.

(** The reserved characters of RFC 3986 section 2.2 that [shouldEscape]
    lists: dollar, ampersand, plus, comma, slash, colon, semicolon,
    equals, question mark and at. *)
Definition is_reserved (c : ascii) : bool :=
  (c =? "$")%char || (c =? "&")%char || (c =? "+")%char || (c =? ",")%char
  || (c =? "/")%char || (c =? ":")%char || (c =? ";")%char || (c =? "=")%char
  || (c =? "?")%char || (c =? "@")%char.

Definition shouldEscape (c : ascii) (mode : encoding) : bool :=
  if is_alnum c then false
  else if is_mark c then false
  else if is_reserved c then
    match mode with
    | encodePathSegment =>
        (c =? "/")%char || (c =? ";")%char || (c =? ",")%char || (c =? "?")%char
    | encodeQueryComponent => true
    end
  else true.

Definition upperhex : string := "0123456789ABCDEF".

Definition hexdigit (n : N) : ascii :=
  match String.get (N.to_nat n) upperhex with
  | Some d => d
  | None => "0"%char
  end.

(** [upperhex[c>>4]] and [upperhex[c&15]]. *)
Definition hi_nibble (c : ascii) : ascii := hexdigit (N.shiftr (N_of_ascii c) 4).
Definition lo_nibble (c : ascii) : ascii := hexdigit (N.land (N_of_ascii c) 15).

Fixpoint escape (s : string) (mode : encoding) : string :=
  match s with
  | EmptyString => EmptyString
  | String c s' =>
      match mode with
      | encodeQueryComponent =>
          if (c =? " ")%char then String "+" (escape s' mode)
          else if shouldEscape c mode
               then String "%" (String (hi_nibble c) (String (lo_nibble c) (escape s' mode)))
               else String c (escape s' mode)
      | encodePathSegment =>
          if shouldEscape c mode
          then String "%" (String (hi_nibble c) (String (lo_nibble c) (escape s' mode)))
          else String c (escape s' mode)
      end
  end.

Definition QueryEscape (s : string) : string := escape s encodeQueryComponent.
Definition PathEscape (s : string) : string := escape s encodePathSegment.

Definition ishex (c : ascii) : bool :=
  byte_in "0" "9" c || byte_in "a" "f" c || byte_in "A" "F" c.

Definition unhex (c : ascii) : N :=
  if byte_in "0" "9" c then N_of_ascii c - N_of_ascii "0"
  else if byte_in "a" "f" c then N_of_ascii c - N_of_ascii "a" + 10
  else if byte_in "A" "F" c then N_of_ascii c - N_of_ascii "A" + 10
  else 0.

(** [unescape]: [None] stands for the [EscapeError] the library returns on
    a percent sign that is not followed by two hexadecimal digits. *)
Fixpoint unescape (s : string) (mode : encoding) : option string :=
  match s with
  | EmptyString => Some EmptyString
  | String c s' =>
      if (c =? "%")%char then
        match s' with
        | String h1 (String h2 s'') =>
            if ishex h1 && ishex h2 then
              match unescape s'' mode with
              | Some t =>
                  Some (String (ascii_of_N (N.lor (N.shiftl (unhex h1) 4) (unhex h2))) t)
              | None => None
              end
            else None
        | _ => None
        end
      else
        match unescape s' mode with
        | Some t =>
            if (c =? "+")%char then
              match mode with
              | encodeQueryComponent => Some (String " " t)
              | encodePathSegment => Some (String "+" t)
              end
            else Some (String c t)
        | None => None
        end
  end.

Definition QueryUnescape (s : string) : option string := unescape s encodeQueryComponent.
Definition PathUnescape (s : string) : option string := unescape s encodePathSegment.

End URL.

(* ===================================================================== *)
(** * The mailing lists controller (Go)                                   *)
(* ===================================================================== *)

Module MailingLists.

Import URL.
Local Open Scope monad_scope.

(** [zoho.Credentials]. *)
Record Credentials : Type := mkCredentials
  { ClientID : string;
    ClientSecret : string;
    RefreshToken : string }.

Record MailingListsController : Type := mkController
  { zohoAccessToken : string;
    zohoListKey : string;
    zohoTopicIds : string;
    zohoCredentials : Credentials }.

(** Go error values.  [ErrNotImplemented] is [ente.ErrNotImplemented];
    [ErrorString] is any other plain error, given by its text;
    [Propagated] is the wrapper [stacktrace.Propagate] puts around a
    cause.  A nil [error] is [None] of [option goerror]. *)
Inductive goerror : Type :=
| ErrNotImplemented
| ErrorString (text : string)
| Propagated (cause : goerror) (msg : string).

(** [stacktrace.Propagate]: nil for a nil cause, a wrapper otherwise. *)
Definition Propagate (cause : option goerror) (msg : string) : option goerror :=
  match cause with
  | None => None
  | Some e => Some (Propagated e msg)
  end.

(** The error at the bottom of a chain of wrappers. *)
Fixpoint RootCause (e : goerror) : goerror :=
  match e with
  | Propagated cause _ => RootCause cause
  | _ => e
  end.

Definition isNotImplemented (err : option goerror) : bool :=
  match err with
  | Some e => match RootCause e with ErrNotImplemented => true | _ => false end
  | None => false
  end.

(** [strings.Contains]: whether [substr] occurs in [s]. *)
Fixpoint Contains (s substr : string) : bool :=
  if String.prefix substr s then true
  else match s with
       | EmptyString => false
       | String _ s' => Contains s' substr
       end.

(** logrus severities used by the controller. *)
Inductive Level : Type :=
| InfoLevel
| WarnLevel
| ErrorLevel.

(** One call of [zoho.DoRequest]: method, URL, access token, credentials. *)
Record Request : Type := mkRequest
  { reqMethod : string;
    reqURL : string;
    reqAccessToken : string;
    reqCredentials : Credentials }.

Definition dquote : ascii := "034"%char.

(** The local [contactInfo] of [doListAction]:
    [fmt.Sprintf] of the format with a plus sign between Contact and
    Email and the query-escaped email between double quotes. *)
Definition contactInfo (email : string) : string :=
  let escapedEmail := QueryEscape email in
  "{Contact+Email: " ++ String dquote (escapedEmail ++ String dquote "}").

(** The local [escapedContactInfo] of [doListAction]. *)
Definition escapedContactInfo (email : string) : string :=
  PathEscape (contactInfo email).

(** The literal as the specification words it, with a space between
    Contact and Email; it is compared with [contactInfo] below. *)
Definition specContactInfo (email : string) : string :=
  "{Contact Email: " ++ String dquote (QueryEscape email ++ String dquote "}").

(** What the vendor is meant to read: the literal with a space and the
    email as the customer wrote it. *)
Definition decodedContactInfo (email : string) : string :=
  "{Contact Email: " ++ String dquote (email ++ String dquote "}").

(** Undoing the two escapes in reverse order. *)
Definition decodeContactInfo (param : string) : option string :=
  match PathUnescape param with
  | Some literal => QueryUnescape literal
  | None => None
  end.

(** The local [url] of [doListAction]. *)
Definition actionURL (action listKey email topicIds : string) : string :=
  "https://campaigns.zoho.com/api/v1.1/json/" ++ action
  ++ "?resfmt=JSON&listkey=" ++ listKey
  ++ "&contactinfo=" ++ escapedContactInfo email
  ++ "&topic_id=" ++ topicIds.

Section Controller.

(** The world outside the process (the vendor and the network), and the
    two collaborators that are not part of the controller:
    [zoho.DoRequest], which returns an access token and an error, and the
    [Error()] method of error values. *)
Variable Net : Type.
Variable DoRequest :
  string -> string -> string -> Credentials -> Net -> (string * option goerror) * Net.
Variable Error : goerror -> string.

(** What a method of the controller can read and change: the receiver,
    the log, the calls made to [zoho.DoRequest] and the outside world. *)
Record World : Type := mkWorld
  { controller : MailingListsController;
    logged : list (Level * string);
    requests : list Request;
    net : Net }.

Definition M : Type -> Type := state World.

Definition log (l : Level) (msg : string) : M unit :=
  w <- get ;;
  put (mkWorld (controller w) (logged w ++ [(l, msg)]) (requests w) (net w)).

Definition receiver : M MailingListsController :=
  w <- get ;; ret (controller w).

(** The assignment [c.zohoAccessToken = zohoAccessToken]. *)
Definition setZohoAccessToken (token : string) : M unit :=
  w <- get ;;
  let c := controller w in
  put (mkWorld (mkController token (zohoListKey c) (zohoTopicIds c) (zohoCredentials c))
               (logged w) (requests w) (net w)).

(** A call of [zoho.DoRequest], recorded in [requests]. *)
Definition callDoRequest (method url accessToken : string) (creds : Credentials)
  : M (string * option goerror) :=
  w <- get ;;
  let '(r, n) := DoRequest method url accessToken creds (net w) in
  put (mkWorld (controller w) (logged w)
               (requests w ++ [mkRequest method url accessToken creds]) n) ;;
  ret r.

Definition shouldSkip : M bool :=
  c <- receiver ;;
  if (RefreshToken (zohoCredentials c) =? EmptyString)%string then
    log InfoLevel "Skipping mailing list update because credentials are not configured" ;;
    ret true
  else ret false.

(** The text of the two log calls of [doListAction]. *)
Definition couldNot (action email : string) (err : goerror) : string :=
  "Zoho - Could not " ++ action ++ " '" ++ email ++ "': " ++ Error err.

Definition doListAction (action email : string) : M (option goerror) :=
  c <- receiver ;;
  let url := actionURL action (zohoListKey c) email (zohoTopicIds c) in
  r <- callDoRequest "POST" url (zohoAccessToken c) (zohoCredentials c) ;;
  let '(zohoAccessToken, err) := r in
  setZohoAccessToken zohoAccessToken ;;
  match err with
  | Some e =>
      if Contains (Error e) "Contact does not exist"
      then log WarnLevel (couldNot action email e)
      else log ErrorLevel (couldNot action email e)
  | None => ret tt
  end ;;
  ret (Propagate err EmptyString).

(** The request [doListAction] makes for a receiver [c], and what
    [zoho.DoRequest] answers to a request in a given outside world. *)
Definition listRequest (c : MailingListsController) (action email : string) : Request :=
  mkRequest "POST" (actionURL action (zohoListKey c) email (zohoTopicIds c))
            (zohoAccessToken c) (zohoCredentials c).

Definition answer (r : Request) (n : Net) : (string * option goerror) * Net :=
  DoRequest (reqMethod r) (reqURL r) (reqAccessToken r) (reqCredentials r) n.

(** The severity [doListAction] logs a failed request with. *)
Definition severity (e : goerror) : Level :=
  if Contains (Error e) "Contact does not exist" then WarnLevel else ErrorLevel.

Definition Subscribe (email : string) : M (option goerror) :=
  skip <- shouldSkip ;;
  if (skip : bool) then ret (Propagate (Some ErrNotImplemented) EmptyString)
  else doListAction "listsubscribe" email.

Definition Unsubscribe (email : string) : M (option goerror) :=
  skip <- shouldSkip ;;
  if (skip : bool) then ret (Propagate (Some ErrNotImplemented) EmptyString)
  else doListAction "listunsubscribe" email.

End Controller.

Arguments controller {Net} _.
Arguments logged {Net} _.
Arguments requests {Net} _.
Arguments net {Net} _.
Arguments mkWorld {Net} _ _ _ _.
Arguments answer {Net} DoRequest r n.
Arguments shouldSkip {Net}.
Arguments doListAction {Net} DoRequest Error action email.
Arguments Subscribe {Net} DoRequest Error email.
Arguments Unsubscribe {Net} DoRequest Error email.

(** A small outside world to run the controller in: the vendor counts
    the requests it has served, refuses the first one because the contact
    is gone and any later one because of a server fault, and hands out a
    fresh token each time. *)
Module Sample.

Definition Net : Type := nat.

Definition DoRequest (method url accessToken : string) (creds : Credentials) (n : Net)
  : (string * option goerror) * Net :=
  match n with
  | O => (("token-1", Some (ErrorString "Contact does not exist.")), S n)
  | S _ => (("token-2", Some (ErrorString "Internal server error")), S n)
  end.

Fixpoint Error (e : goerror) : string :=
  match e with
  | ErrNotImplemented => "not implemented"
  | ErrorString text => text
  | Propagated cause msg => msg ++ Error cause
  end.

Definition disabled : MailingListsController :=
  mkController "cached" "list-key" "t1,t2" (mkCredentials "id" "secret" EmptyString).

Definition enabled : MailingListsController :=
  mkController "cached" "list-key" "t1,t2" (mkCredentials "id" "secret" "refresh").

Definition world (c : MailingListsController) (n : Net) : World Net :=
  mkWorld c [] [] n.

End Sample.

End MailingLists.

(* ===================================================================== *)
(** * Constructing the mailing lists controller (Go)                      *)
(* ===================================================================== *)

Module MailingListsSetup.

Import MailingLists.

(** [NewMailingListsController].  [GetString] is [viper.GetString], which
    gives the empty string for a key that is not configured. *)
Definition NewMailingListsController (GetString : string -> string)
  : MailingListsController :=
  let zohoCredentials :=
    mkCredentials (GetString "zoho.client-id")
                  (GetString "zoho.client-secret")
                  (GetString "zoho.refresh-token") in
  let zohoListKey := GetString "zoho.list-key" in
  let zohoTopicIds := GetString "zoho.topic-ids" in
  let zohoAccessToken := GetString "zoho.access_token" in
  mkController zohoAccessToken zohoListKey zohoTopicIds zohoCredentials.

(** Two configurations to run the constructor on: one without the Zoho
    keys, one with all of them. *)
Definition noZoho (key : string) : string := EmptyString.

Definition withZoho (key : string) : string :=
  if (key =? "zoho.client-id")%string then "id"
  else if (key =? "zoho.client-secret")%string then "secret"
  else if (key =? "zoho.refresh-token")%string then "refresh"
  else if (key =? "zoho.list-key")%string then "list-key"
  else if (key =? "zoho.topic-ids")%string then "t1,t2"
  else EmptyString.

(** Whether every byte of a string satisfies a test. *)
Fixpoint allBytes (p : ascii -> bool) (s : string) : bool :=
  match s with
  | EmptyString => true
  | String c s' => p c && allBytes p s'
  end.

(** The bytes [url.QueryEscape] can write: letters, digits, the four
    marks, the percent sign and the plus sign. *)
Definition queryByte (c : ascii) : bool :=
  URL.is_alnum c || URL.is_mark c || (c =? "%")%char || (c =? "+")%char.

(** The bytes of the literal of [doListAction]: those of the escaped
    email and those of the format string around it. *)
Definition literalByte (c : ascii) : bool :=
  queryByte c || (c =? "{")%char || (c =? ":")%char || (c =? " ")%char
  || (c =? dquote)%char || (c =? "}")%char.

(** The bytes found in the contactinfo parameter. *)
Definition paramByte (c : ascii) : bool :=
  queryByte c || (c =? ":")%char.

End MailingListsSetup.

(* ===================================================================== *)
(** * The plan selector: period toggle, plan rows and plan selection      *)
(* ===================================================================== *)

Module PlanSelectorUI.

Import PlanSelector.

(** The state update of [togglePeriod]:
    [(prev) => (prev == "month" ? "year" : "month")]. *)
Definition togglePeriod (prev : string) : string :=
  if (prev =? "month")%string then "year" else "month".

(** The [onChange] handler of [PeriodToggler], as the plan period it
    leaves behind.  [newPeriod] is null ([None]) when the selected button
    is clicked again; an empty string is falsy as well. *)
Definition onChange (planPeriod : string) (newPeriod : option string) : string :=
  match newPeriod with
  | None => planPeriod
  | Some p =>
      if negb (p =? EmptyString)%string && negb (p =? planPeriod)%string
      then togglePeriod planPeriod
      else planPeriod
  end.

(** A [Plan], with the fields the component reads and writes. *)
Record Plan : Type := mkPlan
  { id : string;
    storage : Z;
    price : string;
    period : string;
    stripeID : option string;
    iosID : option string;
    androidID : option string }.

(** [isPopularPlan]: 100 GB. *)
Definition isPopularPlan (plan : Plan) : bool :=
  (storage plan =? 100 * 1024 * 1024 * 1024)%Z.

(** The props [Plans] gives to a [PlanRow]. *)
Record PlanRowProps : Type := mkPlanRowProps
  { rowPlan : Plan;
    rowDisabled : bool;
    rowPopular : bool }.

(** The props of the [PlanRow] elements of [Plans]: one for each plan of
    the selected period, in the order of the catalogue; none when the
    plans are not loaded yet.  [isSubscriptionForPlan] is the helper of
    the user-details service. *)
Definition planRows (isSubscriptionForPlan : Subscription -> Plan -> bool)
    (plans : option (list Plan)) (planPeriod : string)
    (subscription : option Subscription) : list PlanRowProps :=
  match plans with
  | None => []
  | Some plans =>
      map (fun plan =>
             mkPlanRowProps plan
               (match subscription with
                | Some s => isSubscriptionForPlan s plan
                | None => false
                end)
               (isPopularPlan plan))
          (filter (fun plan => (period plan =? planPeriod)%string) plans)
  end.

(** The free plan of the plans data, with the field [Plans] reads (its
    [storage]), and the plans data; the free plan may be missing. *)
Record FreePlan : Type := mkFreePlan
  { freePlanStorage : Z }.

Record PlansData : Type := mkPlansData
  { freePlan : option FreePlan;
    plans : list Plan }.

(** The children of the [Stack] that [Plans] renders. *)
Inductive PlansChild : Type :=
| PlanRow (props : PlanRowProps)
| FreePlanRow (storage : Z).

(** [Plans]: the plan rows, followed by the free plan row when there is
    no active paid subscription, no add-on bonus and a free plan.
    [plansData] is undefined ([None]) until the plans are loaded;
    [isSubscriptionActivePaid] is the helper of the user-details
    service. *)
Definition Plans (isSubscriptionForPlan : Subscription -> Plan -> bool)
    (isSubscriptionActivePaid : Subscription -> bool)
    (plansData : option PlansData) (planPeriod : string)
    (subscription : option Subscription) (hasAddOnBonus : bool) : list PlansChild :=
  let freePlan := match plansData with Some d => freePlan d | None => None end in
  let plans := match plansData with Some d => Some (plans d) | None => None end in
  map PlanRow (planRows isSubscriptionForPlan plans planPeriod subscription)
  ++ (if negb (match subscription with
               | Some s => isSubscriptionActivePaid s
               | None => false
               end)
         && negb hasAddOnBonus
      then match freePlan with
           | Some fp => [FreePlanRow (freePlanStorage fp)]
           | None => []
           end
      else []).

(** The plans that have a [PlanRow] among the children. *)
Definition listedPlans (children : list PlansChild) : list Plan :=
  flat_map (fun child =>
              match child with
              | PlanRow props => [rowPlan props]
              | FreePlanRow _ => []
              end)
           children.

(** [handleClick] of [PlanRow]: the plan handed to [onPlanSelect], if
    any. *)
Definition handleClick (row : PlanRowProps) : option Plan :=
  if rowDisabled row then None else Some (rowPlan row).

(** The message of a dialog: a translated text or a [Trans] element,
    given by its key. *)
Inductive Message : Type :=
| Text (s : string)
| Trans (i18nKey : string).

(** The closure [() => redirectToPaymentsApp(ensure(plan.stripeID), action)]. *)
Inductive Action : Type :=
| redirectAction (stripeID : option string) (action : string).

Record Continue : Type := mkContinue
  { text : option string;
    action : option Action }.

Record MiniDialogAttributes : Type := mkMiniDialog
  { title : string;
    message : Message;
    continue_ : Continue;
    cancel : option bool }.

(** What [handlePlanSelect] does to its surroundings, in order. *)
Inductive Effect : Type :=
| setLoading (loading : bool)
| redirectToPaymentsApp (stripeID action : string)
| showMiniDialog (attributes : MiniDialogAttributes).

Section HandlePlanSelect.

(** The collaborators: the translation function, the helper that builds
    the attributes of an error dialog, and whether the awaited
    [redirectToPaymentsApp] resolves ([true]) or rejects ([false]). *)
Variable t : string -> string.
Variable errorDialogAttributes : string -> MiniDialogAttributes.
Variable redirects : string -> string -> bool.

(** The [catch] block of the buyPlan case. *)
Definition purchaseFailed : list Effect :=
  [setLoading false;
   showMiniDialog (errorDialogAttributes (t "subscription_purchase_failed"))].

(** [handlePlanSelect].  [ensure] throws on an undefined [stripeID],
    inside the [try] block. *)
Definition handlePlanSelect (dateNow : Z) (subscription : option Subscription)
    (plan : Plan) : list Effect :=
  match planSelectionOutcome dateNow subscription with
  | buyPlan =>
      setLoading true ::
      match stripeID plan with
      | None => purchaseFailed
      | Some sid =>
          redirectToPaymentsApp sid "buy" ::
          (if redirects sid "buy" then [] else purchaseFailed)
      end
  | updateSubscriptionToPlan =>
      [showMiniDialog
         (mkMiniDialog (t "update_subscription_title")
            (Text (t "update_subscription_message"))
            (mkContinue (Some (t "update_subscription"))
                        (Some (redirectAction (stripeID plan) "update")))
            None)]
  | cancelOnMobile =>
      [showMiniDialog
         (mkMiniDialog (t "cancel_subscription_on_mobile")
            (Text (t "cancel_subscription_on_mobile_message"))
            (mkContinue None None)
            (Some false))]
  | contactSupport =>
      [showMiniDialog
         (mkMiniDialog (t "manage_plan")
            (Trans "mail_to_manage_subscription")
            (mkContinue None None)
            (Some false))]
  end.

(** The loading flag after a run of effects. *)
Definition loadingAfter (loading : bool) (effects : list Effect) : bool :=
  fold_left (fun l e => match e with setLoading b => b | _ => l end) effects loading.

End HandlePlanSelect.

(** Sample collaborators: keys stand for their translations, the error
    dialog has the message and nothing to continue with, and the
    payments app cannot be reached for the plan called offline. *)
Module Sample.

Definition t (key : string) : string := key.

Definition errorDialogAttributes (msg : string) : MiniDialogAttributes :=
  mkMiniDialog "error" (Text msg) (mkContinue None None) (Some false).

Definition redirects (stripeID act : string) : bool :=
  negb (stripeID =? "offline")%string.

Definition plan50 : Plan :=
  mkPlan "50gb_monthly" (50 * 1024 * 1024 * 1024) "$2.99" "month"
         (Some "50gb_monthly") None None.

Definition plan200 : Plan :=
  mkPlan "200gb_yearly" (200 * 1024 * 1024 * 1024) "$99.99" "year"
         (Some "200gb_yearly") None None.

Definition isSubscriptionForPlan (s : Subscription) (plan : Plan) : bool :=
  match stripeID plan with
  | Some sid => (sid =? productID s)%string
  | None => false
  end.

Definition isSubscriptionActivePaid (s : Subscription) : bool :=
  negb (productID s =? "free")%string.

Definition plansData : PlansData :=
  mkPlansData (Some (mkFreePlan (10 * 1024 * 1024 * 1024))) [plan200; plan50].

End Sample.

End PlanSelectorUI.

(* ===================================================================== *)
(** * The import service (TypeScript)                                     *)
(* ===================================================================== *)

Module ImportService.

(** A value thrown by JavaScript code: the [TypeError] of reading a
    property of [undefined], or whatever the Electron bridge throws. *)
Inductive JsError : Type :=
| TypeError
| BridgeError (msg : string).

Record ElectronFile : Type := mkElectronFile
  { path : string }.

Record LivePhotoAssets : Type := mkLivePhotoAssets
  { image : ElectronFile;
    video : ElectronFile }.

(** The fields of [FileWithCollection] the service reads.  [file] and
    [livePhotoAssets] may be undefined ([None]); an undefined
    [isLivePhoto] is [false]. *)
Record FileWithCollection : Type := mkFileWithCollection
  { isLivePhoto : bool;
    file : option ElectronFile;
    livePhotoAssets : option LivePhotoAssets }.

Record Collection : Type := mkCollection
  { name : string }.

(** [PendingUploads]; a null [collectionName] is [None]. *)
Record PendingUploads : Type := mkPendingUploads
  { files : list ElectronFile;
    collectionName : option string }.

(** The calls made on [ElectronAPIs]. *)
Inductive Call : Type :=
| showUploadFilesDialogCall
| showUploadDirsDialogCall
| getPendingUploadsCall
| setToUploadFilesCall (filePaths : list string)
| setToUploadCollectionCall (collectionName : option string).

(** What [window.ElectronAPIs] holds: nothing, or an object that has or
    lacks [getPendingUploads]. *)
Inductive Bridge : Type :=
| noBridge
| bridge (hasGetPendingUploads : bool).

(** The flag the constructor computes:
    [!!(runningInBrowser() && window.ElectronAPIs)?.getPendingUploads]. *)
Definition constructorFlag (runningInBrowser : bool) (windowElectronAPIs : Bridge) : bool :=
  runningInBrowser &&
  match windowElectronAPIs with
  | noBridge => false
  | bridge hasGetPendingUploads => hasGetPendingUploads
  end.

(** [files.map((file) => file.file.path)]: the first file without [file]
    throws. *)
Fixpoint mapPaths (fs : list FileWithCollection) : JsError + list string :=
  match fs with
  | [] => inr []
  | f :: rest =>
      match file f with
      | None => inl TypeError
      | Some ef =>
          match mapPaths rest with
          | inl e => inl e
          | inr ps => inr (path ef :: ps)
          end
      end
  end.

(** The loop of [updatePendingUploads], pushing onto [filePaths]. *)
Fixpoint pushPaths (fs : list FileWithCollection) (filePaths : list string)
  : JsError + list string :=
  match fs with
  | [] => inr filePaths
  | fileWithCollection :: rest =>
      if isLivePhoto fileWithCollection then
        match livePhotoAssets fileWithCollection with
        | None => inl TypeError
        | Some assets =>
            pushPaths rest (filePaths ++ [path (image assets); path (video assets)])
        end
      else
        match file fileWithCollection with
        | None => inl TypeError
        | Some ef => pushPaths rest (filePaths ++ [path ef])
        end
  end.

(** The [collectionName] of [setToUploadFiles]: set only when there is
    exactly one collection. *)
Definition uploadCollectionName (collections : list Collection) : option string :=
  if (List.length collections =? 1)%nat then
    match collections with
    | c :: _ => Some (name c)
    | [] => None
    end
  else None.

Section Service.

(** The Electron side: its state and what each bridge function answers
    (a value, or a thrown error) and leaves behind. *)
Variable Electron : Type.
Variable showUploadFilesDialogAPI : Electron -> (JsError + list ElectronFile) * Electron.
Variable showUploadDirsDialogAPI : Electron -> (JsError + list ElectronFile) * Electron.
Variable getPendingUploadsAPI : Electron -> (JsError + PendingUploads) * Electron.
Variable setToUploadFilesAPI : list string -> Electron -> (JsError + unit) * Electron.
Variable setToUploadCollectionAPI : option string -> Electron -> (JsError + unit) * Electron.

(** The service, the calls it has made, the errors it has logged and the
    Electron side. *)
Record World : Type := mkWorld
  { allElectronAPIsExist : bool;
    calls : list Call;
    loggedErrors : list (JsError * string);
    electron : Electron }.

(** A computation that returns or throws, and changes the world. *)
Definition M (A : Type) : Type := World -> (JsError + A) * World.

Definition retM {A : Type} (a : A) : M A := fun w => (inr a, w).

Definition bindM {A B : Type} (m : M A) (k : A -> M B) : M B :=
  fun w =>
    match m w with
    | (inl e, w') => (inl e, w')
    | (inr a, w') => k a w'
    end.

Definition throwM {A : Type} (e : JsError) : M A := fun w => (inl e, w).

Definition tryCatch {A : Type} (body : M A) (handler : JsError -> M A) : M A :=
  fun w =>
    match body w with
    | (inl e, w') => handler e w'
    | (inr a, w') => (inr a, w')
    end.

Definition ofResult {A : Type} (r : JsError + A) : M A := fun w => (r, w).

(** A call on the bridge, recorded in [calls]. *)
Definition callBridge {A : Type} (c : Call) (api : Electron -> (JsError + A) * Electron)
  : M A :=
  fun w =>
    let '(r, e') := api (electron w) in
    (r, mkWorld (allElectronAPIsExist w) (calls w ++ [c]) (loggedErrors w) e').

Definition logError (e : JsError) (msg : string) : M unit :=
  fun w =>
    (inr tt, mkWorld (allElectronAPIsExist w) (calls w) (loggedErrors w ++ [(e, msg)])
                     (electron w)).

Definition checkAllElectronAPIsExists : M bool :=
  fun w => (inr (allElectronAPIsExist w), w).

(** The methods.  A method that ends without [return] gives [undefined],
    which is [None] where a value is expected. *)
Definition showUploadFilesDialog : M (option (list ElectronFile)) :=
  bindM checkAllElectronAPIsExists (fun exist =>
  if (exist : bool) then
    bindM (callBridge showUploadFilesDialogCall showUploadFilesDialogAPI) (fun fs =>
    retM (Some fs))
  else retM None).

Definition showUploadDirsDialog : M (option (list ElectronFile)) :=
  bindM checkAllElectronAPIsExists (fun exist =>
  if (exist : bool) then
    bindM (callBridge showUploadDirsDialogCall showUploadDirsDialogAPI) (fun fs =>
    retM (Some fs))
  else retM None).

Definition getPendingUploads : M (option PendingUploads) :=
  tryCatch
    (bindM checkAllElectronAPIsExists (fun exist =>
     if (exist : bool) then
       bindM (callBridge getPendingUploadsCall getPendingUploadsAPI) (fun pendingUploads =>
       retM (Some pendingUploads))
     else retM None))
    (fun e =>
       bindM (logError e "failed to getPendingUploads ") (fun _ =>
       retM (Some (mkPendingUploads [] None)))).

Definition setToUploadFiles (fs : list FileWithCollection) (collections : list Collection)
  : M unit :=
  bindM checkAllElectronAPIsExists (fun exist =>
  if (exist : bool) then
    let collectionName := uploadCollectionName collections in
    bindM (ofResult (mapPaths fs)) (fun filePaths =>
    bindM (callBridge (setToUploadFilesCall filePaths) (setToUploadFilesAPI filePaths))
      (fun _ =>
    callBridge (setToUploadCollectionCall collectionName)
               (setToUploadCollectionAPI collectionName)))
  else retM tt).

Definition updatePendingUploads (fs : list FileWithCollection) : M unit :=
  bindM checkAllElectronAPIsExists (fun exist =>
  if (exist : bool) then
    bindM (ofResult (pushPaths fs [])) (fun filePaths =>
    callBridge (setToUploadFilesCall filePaths) (setToUploadFilesAPI filePaths))
  else retM tt).

End Service.

Arguments mkWorld {Electron} _ _ _ _.
Arguments allElectronAPIsExist {Electron} _.
Arguments calls {Electron} _.
Arguments loggedErrors {Electron} _.
Arguments electron {Electron} _.

(** A sample Electron side: it counts the calls it has served; reading
    the pending uploads throws on the first call and answers afterwards;
    the other functions answer. *)
Module Sample.

Definition Electron : Type := nat.

Definition dialogAPI (n : Electron) : (JsError + list ElectronFile) * Electron :=
  (inr [mkElectronFile "/photos/a.jpg"], S n).

Definition getPendingUploadsAPI (n : Electron) : (JsError + PendingUploads) * Electron :=
  match n with
  | O => (inl (BridgeError "store is locked"), S n)
  | S _ => (inr (mkPendingUploads [mkElectronFile "/photos/a.jpg"] (Some "Trip")), S n)
  end.

Definition setToUploadFilesAPI (filePaths : list string) (n : Electron)
  : (JsError + unit) * Electron := (inr tt, S n).

Definition setToUploadCollectionAPI (collectionName : option string) (n : Electron)
  : (JsError + unit) * Electron := (inr tt, S n).

Definition photo : FileWithCollection :=
  mkFileWithCollection false (Some (mkElectronFile "/photos/a.jpg")) None.

Definition livePhoto : FileWithCollection :=
  mkFileWithCollection true None
    (Some (mkLivePhotoAssets (mkElectronFile "/photos/b.heic")
                             (mkElectronFile "/photos/b.mov"))).

Definition desktop (n : Electron) : World Electron := mkWorld true [] [] n.

Definition browser (n : Electron) : World Electron := mkWorld false [] [] n.

End Sample.

End ImportService.

(* ===================================================================== *)
(** * Properties of the plan selector                                     *)
(* ===================================================================== *)

Module PlanSelectorFacts.

Import PlanSelector.
Local Open Scope Z_scope.

(** The decision list of [planSelectionOutcome] on a present
    subscription, one equation per rung. *)
Lemma outcome_free dateNow s :
  productID s = "free"%string ->
  planSelectionOutcome dateNow (Some s) = buyPlan.
Proof.
  intros Hfree. unfold planSelectionOutcome.
  rewrite Hfree. reflexivity.
Qed.

(** Rounding to a JavaScript number: the shape of a rounded magnitude
    of more than 53 bits. *)
Lemma roundMagnitude_shape (m : Z) :
  0 < Z.log2 m + 1 - 53 ->
  let e := Z.log2 m + 1 - 53 in
  let q := m / 2 ^ e in
  2 ^ 52 <= q < 2 ^ 53 /\
  m = q * 2 ^ e + m mod 2 ^ e /\ 0 <= m mod 2 ^ e < 2 ^ e /\
  (roundMagnitude m = q * 2 ^ e \/ roundMagnitude m = (q + 1) * 2 ^ e).
Proof.
  intros He e q.
  assert (Hm : 0 < m).
  { destruct (Z.lt_trichotomy m 0) as [H | [H | H]]; [| | exact H].
    - rewrite Z.log2_nonpos in He by lia. lia.
    - subst m. cbn in He. lia. }
  pose proof (Z.log2_spec m Hm) as [Hlo Hhi].
  assert (HP : 0 < 2 ^ e) by (apply Z.pow_pos_nonneg; lia).
  assert (Hlog : Z.log2 m = 52 + e) by (unfold e; lia).
  rewrite Hlog in Hlo. replace (Z.succ (Z.log2 m)) with (53 + e) in Hhi by lia.
  rewrite Z.pow_add_r in Hlo, Hhi by lia.
  split; [split |].
  - apply Z.div_le_lower_bound; lia.
  - apply Z.div_lt_upper_bound; lia.
  - split; [| split].
    + unfold q. rewrite Z.mul_comm. apply Z.div_mod. lia.
    + apply Z.mod_pos_bound. exact HP.
    + unfold roundMagnitude. fold e.
      destruct (e <=? 0) eqn:E; [apply Z.leb_le in E; lia |].
      fold q.
      destruct ((2 ^ (e - 1) <? m mod 2 ^ e)
                || ((m mod 2 ^ e =? 2 ^ (e - 1)) && Z.odd q));
        [right | left]; reflexivity.
Qed.

Lemma roundMagnitude_bounds (m : Z) :
  0 < m -> 2 ^ Z.log2 m <= roundMagnitude m <= 2 ^ (Z.log2 m + 1).
Proof.
  intros Hm. pose proof (Z.log2_spec m Hm) as [Hlo Hhi].
  destruct (Z_le_gt_dec (Z.log2 m + 1 - 53) 0) as [He | He].
  - unfold roundMagnitude. apply Z.leb_le in He. rewrite He.
    replace (Z.log2 m + 1) with (Z.succ (Z.log2 m)) by lia. lia.
  - assert (He' : 0 < Z.log2 m + 1 - 53) by lia.
    destruct (roundMagnitude_shape m He') as [[Hq1 Hq2] [_ [_ Hr]]].
    set (e := Z.log2 m + 1 - 53) in *.
    assert (HP : 0 < 2 ^ e) by (apply Z.pow_pos_nonneg; lia).
    replace (Z.log2 m) with (52 + e) by (unfold e; lia).
    replace (52 + e + 1) with (53 + e) by lia.
    rewrite !Z.pow_add_r by lia.
    destruct Hr as [-> | ->]; nia.
Qed.

Lemma roundMagnitude_nonneg (m : Z) : 0 <= m -> 0 <= roundMagnitude m.
Proof.
  intros Hm. destruct (Z.eq_dec m 0) as [-> | Hne]; [cbn; lia |].
  pose proof (roundMagnitude_bounds m ltac:(lia)) as [H _].
  pose proof (Z.pow_pos_nonneg 2 (Z.log2 m) ltac:(lia) (Z.log2_nonneg m)). lia.
Qed.

(** Rounding keeps the order of magnitudes. *)
Lemma roundMagnitude_mono (a b : Z) :
  0 <= a <= b -> roundMagnitude a <= roundMagnitude b.
Proof.
  intros [Ha Hab].
  destruct (Z.eq_dec a 0) as [-> | Hne].
  { change (roundMagnitude 0) with 0. apply roundMagnitude_nonneg. lia. }
  assert (Ha' : 0 < a) by lia. assert (Hb' : 0 < b) by lia.
  pose proof (Z.log2_le_mono a b Hab) as Hlog.
  destruct (Z.eq_dec (Z.log2 a) (Z.log2 b)) as [Heq | Hlt].
  - destruct (Z_le_gt_dec (Z.log2 a + 1 - 53) 0) as [He | He].
    + unfold roundMagnitude. rewrite <- Heq.
      apply Z.leb_le in He. rewrite He. exact Hab.
    + assert (Hea : 0 < Z.log2 a + 1 - 53) by lia.
      assert (Heb : 0 < Z.log2 b + 1 - 53) by lia.
      pose proof (roundMagnitude_shape a Hea) as [_ [Hda [Hra Hsa]]].
      pose proof (roundMagnitude_shape b Heb) as [_ [Hdb [Hrb Hsb]]].
      rewrite <- Heq in Hdb, Hrb, Hsb.
      set (e := Z.log2 a + 1 - 53) in *.
      assert (HP : 0 < 2 ^ e) by (apply Z.pow_pos_nonneg; lia).
      assert (Hq : a / 2 ^ e <= b / 2 ^ e) by (apply Z.div_le_mono; lia).
      destruct (Z.eq_dec (a / 2 ^ e) (b / 2 ^ e)) as [Hqe | Hqn].
      * unfold roundMagnitude. rewrite <- Heq. fold e.
        destruct (e <=? 0); [exact Hab |].
        rewrite <- Hqe.
        set (q := a / 2 ^ e) in *. set (ra := a mod 2 ^ e) in *.
        set (rb := b mod 2 ^ e) in *. set (half := 2 ^ (e - 1)).
        assert (Hr : ra <= rb) by nia.
        destruct (Z.ltb_spec half ra), (Z.ltb_spec half rb),
                 (Z.eqb_spec ra half), (Z.eqb_spec rb half), (Z.odd q);
          cbn; try lia.
      * assert (Hq' : a / 2 ^ e + 1 <= b / 2 ^ e) by lia.
        destruct Hsa as [-> | ->], Hsb as [-> | ->]; nia.
  - pose proof (roundMagnitude_bounds a Ha') as [_ Hua].
    pose proof (roundMagnitude_bounds b Hb') as [Hlb _].
    assert (2 ^ (Z.log2 a + 1) <= 2 ^ Z.log2 b) by (apply Z.pow_le_mono_r; lia).
    lia.
Qed.

(** A larger integer is never held as a smaller number. *)
Lemma toDouble_mono (a b : Z) : a <= b -> toDouble a <= toDouble b.
Proof.
  intros Hab. unfold toDouble.
  destruct (Z.ltb_spec a 0), (Z.ltb_spec b 0).
  - pose proof (roundMagnitude_mono (- b) (- a)). lia.
  - pose proof (roundMagnitude_nonneg (- a)). pose proof (roundMagnitude_nonneg b). lia.
  - lia.
  - apply roundMagnitude_mono. lia.
Qed.

Lemma roundMagnitude_exact (m : Z) : 0 <= m <= 2 ^ 53 -> roundMagnitude m = m.
Proof.
  intros [H0 H1].
  destruct (Z.eq_dec m (2 ^ 53)) as [-> | Hne]; [reflexivity |].
  destruct (Z.eq_dec m 0) as [-> | Hz]; [reflexivity |].
  assert (Hlog : Z.log2 m < 53) by (apply Z.log2_lt_pow2; lia).
  unfold roundMagnitude.
  destruct (Z.leb_spec (Z.log2 m + 1 - 53) 0); [reflexivity | lia].
Qed.

(** Integers up to 2^53 in magnitude are held exactly. *)
Lemma toDouble_exact (z : Z) : - 2 ^ 53 <= z <= 2 ^ 53 -> toDouble z = z.
Proof.
  intros [H0 H1]. unfold toDouble. destruct (Z.ltb_spec z 0).
  - rewrite roundMagnitude_exact; lia.
  - apply roundMagnitude_exact. lia.
Qed.

(** Against a number of at most 53 bits that is not negative, the
    comparison of the numbers is the comparison of the integers. *)
Lemma toDouble_lt_exact (z p : Z) :
  0 <= p <= 2 ^ 53 -> (toDouble z < toDouble p <-> z < p).
Proof.
  intros Hp. rewrite (toDouble_exact p) by lia. split.
  - intros Hlt. destruct (Z.lt_ge_cases z p) as [H | H]; [exact H |].
    pose proof (toDouble_mono p z H) as Hm.
    rewrite (toDouble_exact p) in Hm by lia. lia.
  - intros Hlt. destruct (Z.le_gt_cases (- 2 ^ 53) z) as [H | H].
    + rewrite toDouble_exact; lia.
    + pose proof (toDouble_mono z (- 2 ^ 53) ltac:(lia)) as Hm.
      rewrite (toDouble_exact (- 2 ^ 53)) in Hm by lia. lia.
Qed.

(** What the code takes for expired is expired. *)
Lemma expiredAsComputed_expired dateNow s :
  expiredAsComputed dateNow s -> expired dateNow s.
Proof.
  unfold expiredAsComputed, expired. intros Hlt.
  destruct (Z.lt_ge_cases (expiryTime s) (dateNow * 1000)) as [H | H]; [exact H |].
  pose proof (toDouble_mono _ _ H). lia.
Qed.

Lemma expired_expiredAsComputed dateNow s :
  0 <= dateNow * 1000 <= 2 ^ 53 ->
  expired dateNow s -> expiredAsComputed dateNow s.
Proof.
  unfold expiredAsComputed, expired. intros Hp Hlt.
  apply toDouble_lt_exact; assumption.
Qed.

Lemma outcome_expired dateNow s :
  expiredAsComputed dateNow s ->
  planSelectionOutcome dateNow (Some s) = buyPlan.
Proof.
  unfold expiredAsComputed, planSelectionOutcome. intros Hexp.
  destruct (productID s =? "free")%string; [reflexivity|].
  apply Z.ltb_lt in Hexp. rewrite Hexp. reflexivity.
Qed.

Lemma outcome_running dateNow s :
  productID s <> "free"%string ->
  ~ expiredAsComputed dateNow s ->
  planSelectionOutcome dateNow (Some s) =
    if (paymentProvider s =? "stripe")%string then updateSubscriptionToPlan
    else if ((paymentProvider s =? "appstore") || (paymentProvider s =? "playstore"))%string
         then cancelOnMobile
    else contactSupport.
Proof.
  unfold expiredAsComputed, planSelectionOutcome. intros Hpaid Hlive.
  apply String.eqb_neq in Hpaid. rewrite Hpaid.
  destruct (Z.ltb_spec (toDouble (expiryTime s)) (toDouble (dateNow * 1000))) as [Hlt|Hge].
  - contradiction.
  - reflexivity.
Qed.

Lemma outcome_active dateNow s :
  productID s <> "free"%string ->
  ~ expired dateNow s ->
  planSelectionOutcome dateNow (Some s) =
    if (paymentProvider s =? "stripe")%string then updateSubscriptionToPlan
    else if ((paymentProvider s =? "appstore") || (paymentProvider s =? "playstore"))%string
         then cancelOnMobile
    else contactSupport.
Proof.
  intros Hpaid Hlive. apply outcome_running; [exact Hpaid |].
  intros Hexp. apply Hlive, expiredAsComputed_expired, Hexp.
Qed.

(** The claim in exact time fails far in the future: when the clock
    reads 72057594037929 ms, the product with 1000 has 57 bits and is
    rounded down by 8, to 72057594037928992.  A stripe subscription that
    expires at that microsecond is earlier than the current time, and
    yet the outcome is [updateSubscriptionToPlan]. *)
Lemma expiry_earlier_than_exact_time_not_buyPlan :
  72057594037928992 < 72057594037929 * 1000 /\
  toDouble 72057594037928992 = 72057594037928992 /\
  toDouble (72057594037929 * 1000) = 72057594037928992 /\
  planSelectionOutcome 72057594037929
    (Some (mkSubscription "50gb_monthly" 72057594037928992 "stripe"))
    = updateSubscriptionToPlan /\
  planSelectionOutcome 72057594037929
    (Some (mkSubscription "50gb_monthly" 72057594037928992 "stripe"))
    <> buyPlan.
Proof.
  split; [lia |]. split; [reflexivity |]. split; [reflexivity |].
  split; [reflexivity |]. intros H. vm_compute in H. discriminate H.
Qed.

(** C1: a subscription whose expiry time lies before the current time
    as the code computes it ([Date.now() * 1000] in floating point)
    resolves to [buyPlan] whatever its product and payment provider are,
    so also when the provider is stripe.  As long as the current time in
    microseconds is between 0 and 2^53 the computed time is the exact
    one, and every subscription that expires before the current time
    resolves to [buyPlan]. *)
Theorem expired_subscription_buys_plan
    (dateNow : Z) (pid : string) (expiry : Z) (provider : string) :
  (toDouble expiry < toDouble (dateNow * 1000) ->
   planSelectionOutcome dateNow (Some (mkSubscription pid expiry provider)) = buyPlan) /\
  (0 <= dateNow * 1000 <= 2 ^ 53 ->
   expiry < dateNow * 1000 ->
   planSelectionOutcome dateNow (Some (mkSubscription pid expiry provider)) = buyPlan).
Proof.
  split.
  - intros Hexp. apply outcome_expired. exact Hexp.
  - intros Hrange Hexp. apply outcome_expired.
    apply expired_expiredAsComputed; [exact Hrange | exact Hexp].
Qed.

Lemma expired_subscription_buys_plan_witness :
  0 <= 1700000000001 * 1000 <= 2 ^ 53 /\
  1700000000000000 < 1700000000001 * 1000 /\
  planSelectionOutcome 1700000000001
    (Some (mkSubscription "50gb_monthly" 1700000000000000 "stripe")) = buyPlan.
Proof.
  assert (Hrange : 0 <= 1700000000001 * 1000 <= 2 ^ 53) by lia.
  assert (Hexp : 1700000000000000 < 1700000000001 * 1000) by lia.
  split; [exact Hrange |]. split; [exact Hexp |].
  exact (proj2 (expired_subscription_buys_plan
                  1700000000001 "50gb_monthly" 1700000000000000 "stripe")
               Hrange Hexp).
Defined.

(** C6: for a subscription that is not expired and whose product is not
    the free one, the outcome follows the payment provider: stripe gives
    [updateSubscriptionToPlan], appstore and playstore give
    [cancelOnMobile], every other provider gives [contactSupport]. *)
Theorem active_paid_dispatches_on_provider (dateNow : Z) (s : Subscription) :
  productID s <> "free"%string ->
  ~ expired dateNow s ->
  (paymentProvider s = "stripe"%string ->
     planSelectionOutcome dateNow (Some s) = updateSubscriptionToPlan) /\
  (paymentProvider s = "appstore"%string \/ paymentProvider s = "playstore"%string ->
     planSelectionOutcome dateNow (Some s) = cancelOnMobile) /\
  (paymentProvider s <> "stripe"%string ->
   paymentProvider s <> "appstore"%string ->
   paymentProvider s <> "playstore"%string ->
     planSelectionOutcome dateNow (Some s) = contactSupport).
Proof.
  intros Hpaid Hlive.
  rewrite (outcome_active dateNow s Hpaid Hlive).
  split; [| split].
  - intros ->. reflexivity.
  - intros [-> | ->]; reflexivity.
  - intros H1 H2 H3.
    apply String.eqb_neq in H1, H2, H3.
    rewrite H1, H2, H3. reflexivity.
Qed.

Lemma active_paid_dispatches_on_provider_witness :
  planSelectionOutcome 1700000000000
    (Some (mkSubscription "50gb_yearly" 1800000000000000 "stripe"))
    = updateSubscriptionToPlan /\
  planSelectionOutcome 1700000000000
    (Some (mkSubscription "50gb_yearly" 1800000000000000 "appstore"))
    = cancelOnMobile /\
  planSelectionOutcome 1700000000000
    (Some (mkSubscription "50gb_yearly" 1800000000000000 "playstore"))
    = cancelOnMobile /\
  planSelectionOutcome 1700000000000
    (Some (mkSubscription "50gb_yearly" 1800000000000000 "paypal"))
    = contactSupport.
Proof.
  assert (Hlive : forall p,
            ~ expired 1700000000000 (mkSubscription "50gb_yearly" 1800000000000000 p)).
  { intros p. unfold expired. simpl. lia. }
  assert (Hpaid : forall p,
            productID (mkSubscription "50gb_yearly" 1800000000000000 p) <> "free"%string).
  { intros p. simpl. discriminate. }
  split; [| split; [| split]].
  - apply (active_paid_dispatches_on_provider 1700000000000
             (mkSubscription "50gb_yearly" 1800000000000000 "stripe")
             (Hpaid _) (Hlive _)).
    reflexivity.
  - apply (active_paid_dispatches_on_provider 1700000000000
             (mkSubscription "50gb_yearly" 1800000000000000 "appstore")
             (Hpaid _) (Hlive _)).
    left. reflexivity.
  - apply (active_paid_dispatches_on_provider 1700000000000
             (mkSubscription "50gb_yearly" 1800000000000000 "playstore")
             (Hpaid _) (Hlive _)).
    right. reflexivity.
  - apply (active_paid_dispatches_on_provider 1700000000000
             (mkSubscription "50gb_yearly" 1800000000000000 "paypal")
             (Hpaid _) (Hlive _)); simpl; discriminate.
Defined.

(** C7: without a subscription the outcome is [buyPlan]. *)
Theorem absent_subscription_buys_plan (dateNow : Z) :
  planSelectionOutcome dateNow None = buyPlan.
Proof. reflexivity. Qed.

(** C8: a subscription whose product is the free one resolves to
    [buyPlan] whatever its expiry time and payment provider are. *)
Theorem free_subscription_buys_plan (dateNow expiry : Z) (provider : string) :
  planSelectionOutcome dateNow (Some (mkSubscription "free" expiry provider)) = buyPlan.
Proof. reflexivity. Qed.

(** C9: the expiry test is a strict comparison.  A subscription to a
    paid product whose expiry time is exactly the current time in
    microseconds is not treated as expired: its outcome follows the
    payment provider and is never [buyPlan], so with stripe it is
    [updateSubscriptionToPlan].  One microsecond earlier the same
    subscription is expired and the outcome is [buyPlan] (for a clock
    whose microseconds are held exactly). *)
Theorem expiring_now_is_not_expired (dateNow : Z) (s : Subscription) :
  productID s <> "free"%string ->
  expiryTime s = dateNow * 1000 ->
  planSelectionOutcome dateNow (Some s) =
    (if (paymentProvider s =? "stripe")%string then updateSubscriptionToPlan
     else if ((paymentProvider s =? "appstore") || (paymentProvider s =? "playstore"))%string
          then cancelOnMobile
     else contactSupport) /\
  planSelectionOutcome dateNow (Some s) <> buyPlan /\
  (paymentProvider s = "stripe"%string ->
   planSelectionOutcome dateNow (Some s) = updateSubscriptionToPlan) /\
  (0 <= dateNow * 1000 <= 2 ^ 53 ->
   planSelectionOutcome dateNow
     (Some (mkSubscription (productID s) (dateNow * 1000 - 1) (paymentProvider s)))
     = buyPlan).
Proof.
  intros Hpaid Hnow.
  assert (Hlive : ~ expiredAsComputed dateNow s).
  { unfold expiredAsComputed. rewrite Hnow. lia. }
  pose proof (outcome_running dateNow s Hpaid Hlive) as Hout.
  split; [exact Hout |]. split; [| split].
  - rewrite Hout.
    destruct (paymentProvider s =? "stripe")%string; [discriminate |].
    destruct ((paymentProvider s =? "appstore") || (paymentProvider s =? "playstore"))%string;
      discriminate.
  - intros Hstripe. rewrite Hout, Hstripe. reflexivity.
  - intros Hrange. apply outcome_expired.
    apply expired_expiredAsComputed; [exact Hrange |].
    unfold expired. cbn. lia.
Qed.

Lemma expiring_now_is_not_expired_witness :
  "50gb_monthly"%string <> "free"%string /\
  planSelectionOutcome 1700000000000
    (Some (mkSubscription "50gb_monthly" (1700000000000 * 1000) "stripe"))
    = updateSubscriptionToPlan /\
  planSelectionOutcome 1700000000000
    (Some (mkSubscription "50gb_monthly" (1700000000000 * 1000 - 1) "stripe"))
    = buyPlan.
Proof.
  assert (Hpaid : "50gb_monthly"%string <> "free"%string) by discriminate.
  assert (Hrange : 0 <= 1700000000000 * 1000 <= 2 ^ 53) by lia.
  split; [exact Hpaid |].
  destruct (expiring_now_is_not_expired 1700000000000
              (mkSubscription "50gb_monthly" (1700000000000 * 1000) "stripe")
              Hpaid eq_refl)
    as [_ [_ [Hstripe Hbefore]]].
  split; [exact (Hstripe eq_refl) | exact (Hbefore Hrange)].
Defined.

End PlanSelectorFacts.

(* ===================================================================== *)
(** * Properties of the escaping functions                                *)
(* ===================================================================== *)

Module URLFacts.

Import URL.

(** The two hexadecimal digits written for a byte read back as that byte. *)
Lemma nibbles_roundtrip (c : ascii) :
  ishex (hi_nibble c) && ishex (lo_nibble c) = true /\
  ascii_of_N (N.lor (N.shiftl (unhex (hi_nibble c)) 4) (unhex (lo_nibble c))) = c.
Proof.
  destruct c as [[] [] [] [] [] [] [] []]; split; reflexivity.
Qed.

Lemma unescape_percent (h1 h2 : ascii) (r : string) (mode : encoding) :
  unescape (String "%" (String h1 (String h2 r))) mode =
    if ishex h1 && ishex h2 then
      match unescape r mode with
      | Some t => Some (String (ascii_of_N (N.lor (N.shiftl (unhex h1) 4) (unhex h2))) t)
      | None => None
      end
    else None.
Proof. reflexivity. Qed.

Lemma unescape_plus (r : string) :
  unescape (String "+" r) encodeQueryComponent =
    option_map (String " ") (unescape r encodeQueryComponent).
Proof.
  cbn [unescape]. change (("+" =? "%")%char) with false. cbv iota.
  destruct (unescape r encodeQueryComponent); reflexivity.
Qed.

Lemma unescape_literal (c : ascii) (r : string) (mode : encoding) :
  (c =? "%")%char = false ->
  (c =? "+")%char = false \/ mode = encodePathSegment ->
  unescape (String c r) mode = option_map (String c) (unescape r mode).
Proof.
  intros Hpct Hplus. cbn [unescape]. rewrite Hpct.
  destruct (unescape r mode) as [t|]; [| reflexivity].
  destruct (Ascii.eqb_spec c "+") as [-> | Hne].
  - destruct Hplus as [Hplus | ->]; [discriminate | reflexivity].
  - reflexivity.
Qed.

(** A byte that [shouldEscape] lets through is never a percent sign, and
    in a query component it is never a plus sign. *)
Lemma unescaped_byte (c : ascii) (mode : encoding) :
  shouldEscape c mode = false ->
  (c =? "%")%char = false /\
  ((c =? "+")%char = false \/ mode = encodePathSegment).
Proof.
  destruct mode.
  - intros H. split; [| right; reflexivity].
    destruct c as [[] [] [] [] [] [] [] []]; try reflexivity; discriminate H.
  - intros H.
    destruct c as [[] [] [] [] [] [] [] []];
      try (split; [reflexivity | left; reflexivity]); discriminate H.
Qed.

Lemma escape_cons_escaped (c : ascii) (s : string) (mode : encoding) :
  (c =? " ")%char = false \/ mode = encodePathSegment ->
  shouldEscape c mode = true ->
  escape (String c s) mode =
    String "%" (String (hi_nibble c) (String (lo_nibble c) (escape s mode))).
Proof.
  intros Hsp Hesc. cbn [escape]. rewrite Hesc.
  destruct mode; [reflexivity |].
  destruct Hsp as [-> | Hm]; [reflexivity | discriminate Hm].
Qed.

Lemma escape_cons_plain (c : ascii) (s : string) (mode : encoding) :
  shouldEscape c mode = false ->
  escape (String c s) mode = String c (escape s mode).
Proof.
  intros Hesc. cbn [escape]. rewrite Hesc.
  destruct mode; [reflexivity |].
  destruct (Ascii.eqb_spec c " ") as [-> | _]; [discriminate Hesc | reflexivity].
Qed.

Lemma option_map_app (a : ascii) (s : string) (o : option string) :
  option_map (String a) (option_map (append s) o) = option_map (append (String a s)) o.
Proof. destruct o; reflexivity. Qed.

(** [unescape] undoes [escape] of the same mode, also in front of more
    text. *)
Lemma unescape_escape_app (mode : encoding) (s t : string) :
  unescape (escape s mode ++ t) mode = option_map (append s) (unescape t mode).
Proof.
  induction s as [| c s IH].
  - cbn. destruct (unescape t mode); reflexivity.
  - destruct (shouldEscape c mode) eqn:Hesc.
    + destruct mode.
      * rewrite escape_cons_escaped by (auto).
        cbn [append]. rewrite unescape_percent.
        destruct (nibbles_roundtrip c) as [-> ->].
        rewrite IH. destruct (unescape t encodePathSegment); reflexivity.
      * destruct (Ascii.eqb_spec c " ") as [-> | Hsp].
        -- change (escape (String " " s) encodeQueryComponent)
             with (String "+" (escape s encodeQueryComponent)).
           cbn [append]. rewrite unescape_plus, IH. apply option_map_app.
        -- apply Ascii.eqb_neq in Hsp.
           rewrite escape_cons_escaped by (auto).
           cbn [append]. rewrite unescape_percent.
           destruct (nibbles_roundtrip c) as [-> ->].
           rewrite IH. destruct (unescape t encodeQueryComponent); reflexivity.
    + rewrite escape_cons_plain by exact Hesc.
      destruct (unescaped_byte c mode Hesc) as [Hpct Hplus].
      cbn [append]. rewrite unescape_literal by assumption.
      rewrite IH. apply option_map_app.
Qed.

Lemma append_empty_r (s : string) : s ++ EmptyString = s.
Proof. induction s as [| c s IH]; [reflexivity | cbn; rewrite IH; reflexivity]. Qed.

Lemma PathUnescape_PathEscape (s : string) : PathUnescape (PathEscape s) = Some s.
Proof.
  unfold PathUnescape, PathEscape.
  rewrite <- (append_empty_r (escape s encodePathSegment)).
  rewrite unescape_escape_app. cbn. rewrite append_empty_r. reflexivity.
Qed.

Lemma QueryUnescape_QueryEscape (s : string) : QueryUnescape (QueryEscape s) = Some s.
Proof.
  unfold QueryUnescape, QueryEscape.
  rewrite <- (append_empty_r (escape s encodeQueryComponent)).
  rewrite unescape_escape_app. cbn. rewrite append_empty_r. reflexivity.
Qed.

(** Query escaping leaves no plus sign of the input behind: a plus is
    written as percent 2B. *)
Lemma QueryEscape_plus (s : string) :
  QueryEscape (String "+" s) = String "%" (String "2" (String "B" (QueryEscape s))).
Proof. reflexivity. Qed.

(** Path escaping leaves a plus sign as it is. *)
Lemma PathEscape_plus (s : string) :
  PathEscape (String "+" s) = String "+" (PathEscape s).
Proof. reflexivity. Qed.

End URLFacts.

(* ===================================================================== *)
(** * Properties of the mailing lists controller                          *)
(* ===================================================================== *)

Module MailingListsFacts.

Import URL URLFacts MailingLists.

(** [strings.Contains] finds exactly the texts that have [substr]
    somewhere inside. *)
Lemma prefix_app (p s : string) :
  String.prefix p s = true <-> exists t, s = p ++ t.
Proof.
  revert s. induction p as [| a p IH]; intros s.
  - cbn. split; [intros _; exists s; reflexivity | intros _; destruct s; reflexivity].
  - destruct s as [| b s]; cbn.
    + split; [discriminate | intros [t Ht]; discriminate Ht].
    + destruct (ascii_dec a b) as [-> | Hne].
      * rewrite IH. split; intros [t Ht]; exists t.
        -- rewrite Ht. reflexivity.
        -- injection Ht as Ht. exact Ht.
      * split; [discriminate | intros [t Ht]; injection Ht as Hab _; congruence].
Qed.

Lemma Contains_spec (s substr : string) :
  Contains s substr = true <-> exists a b, s = a ++ substr ++ b.
Proof.
  induction s as [| c s IH].
  - cbn [Contains]. destruct (String.prefix substr EmptyString) eqn:Hp.
    + split; [intros _ | reflexivity].
      apply prefix_app in Hp. destruct Hp as [t Ht].
      exists EmptyString, t. exact Ht.
    + split; [discriminate |].
      intros [a [b Hab]]. destruct a; [| discriminate Hab].
      assert (String.prefix substr EmptyString = true) as Hp'
        by (apply prefix_app; exists b; exact Hab).
      congruence.
  - cbn [Contains]. destruct (String.prefix substr (String c s)) eqn:Hp.
    + split; [intros _ | reflexivity].
      apply prefix_app in Hp. destruct Hp as [t Ht].
      exists EmptyString, t. exact Ht.
    + rewrite IH. split.
      * intros [a [b Hab]]. exists (String c a), b. cbn. rewrite Hab. reflexivity.
      * intros [a [b Hab]]. destruct a as [| a0 a].
        -- assert (String.prefix substr (String c s) = true) as Hp'
             by (apply prefix_app; exists b; exact Hab).
           congruence.
        -- injection Hab as _ Hab. exists a, b. exact Hab.
Qed.

(** Reading the literal of [doListAction] back as a query component
    turns its plus sign into a space and the escaped email into the
    email. *)
Lemma QueryUnescape_contactInfo (email : string) :
  QueryUnescape (contactInfo email) = Some (decodedContactInfo email).
Proof.
  unfold QueryUnescape, contactInfo, decodedContactInfo, QueryEscape.
  cbn [append].
  repeat first
    [ rewrite unescape_plus
    | rewrite unescape_literal by (split || (left; reflexivity) || reflexivity) ].
  rewrite unescape_escape_app.
  rewrite unescape_literal by (reflexivity || (left; reflexivity)).
  rewrite unescape_literal by (reflexivity || (left; reflexivity)).
  reflexivity.
Qed.

(** The literal the controller builds is not the one with a space: for
    the email a+b@example.com the two differ at the character between
    Contact and Email, and so do their path escapes (a plus sign against
    percent 20). *)
Lemma contactInfo_is_not_spec_literal :
  contactInfo "a+b@example.com" <> specContactInfo "a+b@example.com" /\
  escapedContactInfo "a+b@example.com" <> PathEscape (specContactInfo "a+b@example.com") /\
  PathEscape (specContactInfo "a+b@example.com")
    = "%7BContact%20Email:%20%22a%252Bb%2540example.com%22%7D".
Proof.
  split; [| split].
  - intros H. vm_compute in H. discriminate H.
  - intros H. vm_compute in H. discriminate H.
  - vm_compute. reflexivity.
Qed.

Section ControllerFacts.

Variable Net : Type.
Variable DoRequest :
  string -> string -> string -> Credentials -> Net -> (string * option goerror) * Net.
Variable Error : goerror -> string.

(** What one call of [doListAction] returns and leaves behind, given the
    answer of [zoho.DoRequest]. *)
Lemma doListAction_run (w : World Net) (action email tok : string)
    (err : option goerror) (n' : Net) :
  answer DoRequest (listRequest (controller w) action email) (net w) = ((tok, err), n') ->
  runState (doListAction DoRequest Error action email) w =
    (Propagate err EmptyString,
     mkWorld
       (mkController tok (zohoListKey (controller w)) (zohoTopicIds (controller w))
                     (zohoCredentials (controller w)))
       (logged w ++ match err with
                    | Some e => [(severity Error e, couldNot Error action email e)]
                    | None => []
                    end)
       (requests w ++ [listRequest (controller w) action email])
       n').
Proof.
  unfold answer, listRequest. cbn [reqMethod reqURL reqAccessToken reqCredentials].
  intros Hans.
  unfold doListAction, callDoRequest, receiver, setZohoAccessToken, log.
  cbn -[actionURL]. rewrite Hans. cbn -[actionURL].
  destruct err as [e |]; cbn -[actionURL].
  - unfold severity. destruct (Contains (Error e) "Contact does not exist"); reflexivity.
  - rewrite app_nil_r. reflexivity.
Qed.

(** What [Subscribe] and [Unsubscribe] return and leave behind when the
    refresh token is empty. *)
Lemma skipped_run (w : World Net) :
  RefreshToken (zohoCredentials (controller w)) = EmptyString ->
  forall email,
    let skipped :=
      (Some (Propagated ErrNotImplemented EmptyString),
       mkWorld (controller w)
               (logged w ++ [(InfoLevel,
                  "Skipping mailing list update because credentials are not configured")])
               (requests w) (net w)) in
    runState (Subscribe DoRequest Error email) w = skipped /\
    runState (Unsubscribe DoRequest Error email) w = skipped.
Proof.
  intros Hempty email.
  unfold Subscribe, Unsubscribe, shouldSkip, receiver, log.
  cbn. rewrite Hempty. cbn. split; reflexivity.
Qed.

(** C2: the contactinfo parameter is built in two stages.  The email is
    query-escaped, which writes a plus sign as percent 2B; the result is
    put between double quotes in the literal that has a plus sign (not a
    space) between Contact and Email; the literal is path-escaped, which
    leaves that plus sign as it is; and the parameter is placed in the
    URL of the one request [doListAction] makes.  Undoing the two stages
    (path-unescape, then query-unescape) gives, for every email, the
    literal with a space and the email as written; for a+b@example.com
    the plus of the email comes back as a plus. *)
Theorem contactinfo_two_stage_escape (w : World Net) (action email : string) :
  (forall s, QueryEscape (String "+" s) = "%2B" ++ QueryEscape s) /\
  (forall s, PathEscape (String "+" s) = String "+" (PathEscape s)) /\
  contactInfo email
    = "{Contact+Email: " ++ String dquote (QueryEscape email ++ String dquote "}") /\
  escapedContactInfo email = PathEscape (contactInfo email) /\
  decodeContactInfo (escapedContactInfo email) = Some (decodedContactInfo email) /\
  QueryEscape "a+b@example.com" = "a%2Bb%40example.com" /\
  escapedContactInfo "a+b@example.com"
    = "%7BContact+Email:%20%22a%252Bb%2540example.com%22%7D" /\
  decodeContactInfo "%7BContact+Email:%20%22a%252Bb%2540example.com%22%7D"
    = Some ("{Contact Email: " ++ String dquote ("a+b@example.com" ++ String dquote "}")) /\
  requests (snd (runState (doListAction DoRequest Error action email) w))
    = (requests w ++ [listRequest (controller w) action email])%list /\
  reqURL (listRequest (controller w) action email)
    = "https://campaigns.zoho.com/api/v1.1/json/" ++ action
      ++ "?resfmt=JSON&listkey=" ++ zohoListKey (controller w)
      ++ "&contactinfo=" ++ escapedContactInfo email
      ++ "&topic_id=" ++ zohoTopicIds (controller w).
Proof.
  repeat match goal with |- _ /\ _ => split end; try reflexivity.
  - unfold decodeContactInfo, escapedContactInfo.
    rewrite PathUnescape_PathEscape. apply QueryUnescape_contactInfo.
  - destruct (answer DoRequest (listRequest (controller w) action email) (net w))
      as [[tok err] n'] eqn:Hans.
    rewrite (doListAction_run w action email tok err n' Hans). reflexivity.
Qed.

(** C3: with an empty refresh token, [Subscribe] and [Unsubscribe]
    return the propagated [ErrNotImplemented] for every email, make no
    call to [zoho.DoRequest] and leave the outside world as it was. *)
Theorem disabled_mode_fails_without_request (w : World Net) (email : string) :
  RefreshToken (zohoCredentials (controller w)) = EmptyString ->
  let sub := runState (Subscribe DoRequest Error email) w in
  let unsub := runState (Unsubscribe DoRequest Error email) w in
  (fst sub = Some (Propagated ErrNotImplemented EmptyString) /\
   isNotImplemented (fst sub) = true /\
   requests (snd sub) = requests w /\
   net (snd sub) = net w) /\
  (fst unsub = Some (Propagated ErrNotImplemented EmptyString) /\
   isNotImplemented (fst unsub) = true /\
   requests (snd unsub) = requests w /\
   net (snd unsub) = net w).
Proof.
  intros Hempty sub unsub.
  destruct (skipped_run w Hempty email) as [Hsub Hunsub].
  subst sub unsub. rewrite Hsub, Hunsub. cbn.
  split; (split; [| split; [| split]]); reflexivity.
Qed.

(** C4: a failed request is classified for the log only.  The call
    returns the propagated error of the request, whatever its text; it
    returns an error exactly when the request failed; and the one log
    entry it adds on failure is a warning when the text of the error
    contains the marker of a missing contact, an error otherwise. *)
Theorem failure_is_logged_and_propagated (w : World Net) (action email tok : string)
    (err : option goerror) (n' : Net) :
  answer DoRequest (listRequest (controller w) action email) (net w) = ((tok, err), n') ->
  let run := runState (doListAction DoRequest Error action email) w in
  fst run = Propagate err EmptyString /\
  (fst run <> None <-> err <> None) /\
  (err = None -> logged (snd run) = logged w) /\
  (forall e, err = Some e ->
     fst run = Some (Propagated e EmptyString) /\
     (Contains (Error e) "Contact does not exist" = true ->
        logged (snd run)
          = (logged w ++ [(WarnLevel, couldNot Error action email e)])%list) /\
     (Contains (Error e) "Contact does not exist" = false ->
        logged (snd run)
          = (logged w ++ [(ErrorLevel, couldNot Error action email e)])%list)).
Proof.
  intros Hans run. subst run.
  rewrite (doListAction_run w action email tok err n' Hans). cbn [fst snd logged].
  split; [reflexivity | split; [| split]].
  - destruct err; cbn; split; intros H; congruence.
  - intros ->. apply app_nil_r.
  - intros e ->. cbn. unfold severity.
    split; [reflexivity | split]; intros ->; reflexivity.
Qed.

(** C5: after a call of [doListAction] the cached access token is the
    one [zoho.DoRequest] returned, whether the request failed or not. *)
Theorem access_token_is_always_stored (w : World Net) (action email tok : string)
    (err : option goerror) (n' : Net) :
  answer DoRequest (listRequest (controller w) action email) (net w) = ((tok, err), n') ->
  zohoAccessToken (controller (snd (runState (doListAction DoRequest Error action email) w)))
    = tok.
Proof.
  intros Hans.
  rewrite (doListAction_run w action email tok err n' Hans). reflexivity.
Qed.

(** C10: with an empty refresh token, [Subscribe] and [Unsubscribe]
    leave the controller as it was, the cached access token included. *)
Theorem disabled_mode_keeps_controller (w : World Net) (email : string) :
  RefreshToken (zohoCredentials (controller w)) = EmptyString ->
  let sub := snd (runState (Subscribe DoRequest Error email) w) in
  let unsub := snd (runState (Unsubscribe DoRequest Error email) w) in
  controller sub = controller w /\
  zohoAccessToken (controller sub) = zohoAccessToken (controller w) /\
  controller unsub = controller w /\
  zohoAccessToken (controller unsub) = zohoAccessToken (controller w).
Proof.
  intros Hempty sub unsub.
  destruct (skipped_run w Hempty email) as [Hsub Hunsub].
  subst sub unsub. rewrite Hsub, Hunsub. cbn.
  split; [| split; [| split]]; reflexivity.
Qed.

End ControllerFacts.

(** The theorems at work in the sample world. *)

Lemma disabled_mode_fails_without_request_witness :
  RefreshToken (zohoCredentials (controller (Sample.world Sample.disabled 0)))
    = EmptyString /\
  fst (runState (Subscribe Sample.DoRequest Sample.Error "a@b.com")
                (Sample.world Sample.disabled 0))
    = Some (Propagated ErrNotImplemented EmptyString) /\
  requests (snd (runState (Subscribe Sample.DoRequest Sample.Error "a@b.com")
                          (Sample.world Sample.disabled 0))) = [] /\
  fst (runState (Unsubscribe Sample.DoRequest Sample.Error "a@b.com")
                (Sample.world Sample.disabled 0))
    = Some (Propagated ErrNotImplemented EmptyString) /\
  requests (snd (runState (Unsubscribe Sample.DoRequest Sample.Error "a@b.com")
                          (Sample.world Sample.disabled 0))) = [].
Proof.
  split; [reflexivity |].
  destruct (disabled_mode_fails_without_request
              Sample.Net Sample.DoRequest Sample.Error
              (Sample.world Sample.disabled 0) "a@b.com" eq_refl)
    as [[Hs [_ [Hsr _]]] [Hu [_ [Hur _]]]].
  split; [exact Hs | split; [exact Hsr | split; [exact Hu | exact Hur]]].
Defined.

Lemma failure_is_logged_and_propagated_witness :
  answer Sample.DoRequest
    (listRequest (controller (Sample.world Sample.enabled 0)) "listunsubscribe" "a@b.com")
    (net (Sample.world Sample.enabled 0))
    = (("token-1", Some (ErrorString "Contact does not exist.")), 1) /\
  fst (runState (doListAction Sample.DoRequest Sample.Error "listunsubscribe" "a@b.com")
                (Sample.world Sample.enabled 0))
    = Some (Propagated (ErrorString "Contact does not exist.") EmptyString) /\
  logged (snd (runState (doListAction Sample.DoRequest Sample.Error
                           "listunsubscribe" "a@b.com")
                        (Sample.world Sample.enabled 0)))
    = [(WarnLevel,
        "Zoho - Could not listunsubscribe 'a@b.com': Contact does not exist.")].
Proof.
  split; [reflexivity |].
  destruct (failure_is_logged_and_propagated
              Sample.Net Sample.DoRequest Sample.Error
              (Sample.world Sample.enabled 0) "listunsubscribe" "a@b.com"
              "token-1" (Some (ErrorString "Contact does not exist.")) 1 eq_refl)
    as [_ [_ [_ Hfail]]].
  destruct (Hfail (ErrorString "Contact does not exist.") eq_refl) as [Hres [Hwarn _]].
  split; [exact Hres | exact (Hwarn eq_refl)].
Defined.

Lemma access_token_is_always_stored_witness :
  answer Sample.DoRequest
    (listRequest (controller (Sample.world Sample.enabled 1)) "listsubscribe" "a@b.com")
    (net (Sample.world Sample.enabled 1))
    = (("token-2", Some (ErrorString "Internal server error")), 2) /\
  zohoAccessToken
    (controller (snd (runState (doListAction Sample.DoRequest Sample.Error
                                  "listsubscribe" "a@b.com")
                               (Sample.world Sample.enabled 1))))
    = "token-2".
Proof.
  split; [reflexivity |].
  exact (access_token_is_always_stored
           Sample.Net Sample.DoRequest Sample.Error
           (Sample.world Sample.enabled 1) "listsubscribe" "a@b.com"
           "token-2" (Some (ErrorString "Internal server error")) 2 eq_refl).
Defined.

Lemma disabled_mode_keeps_controller_witness :
  RefreshToken (zohoCredentials (controller (Sample.world Sample.disabled 0)))
    = EmptyString /\
  zohoAccessToken
    (controller (snd (runState (Subscribe Sample.DoRequest Sample.Error "a@b.com")
                               (Sample.world Sample.disabled 0)))) = "cached" /\
  zohoAccessToken
    (controller (snd (runState (Unsubscribe Sample.DoRequest Sample.Error "a@b.com")
                               (Sample.world Sample.disabled 0)))) = "cached".
Proof.
  split; [reflexivity |].
  destruct (disabled_mode_keeps_controller
              Sample.Net Sample.DoRequest Sample.Error
              (Sample.world Sample.disabled 0) "a@b.com" eq_refl)
    as [_ [Hs [_ Hu]]].
  split; [exact Hs | exact Hu].
Defined.

End MailingListsFacts.

(* ===================================================================== *)
(** * More properties of the mailing lists controller                     *)
(* ===================================================================== *)

Module MailingListsMoreFacts.

Import URL URLFacts MailingLists MailingListsSetup MailingListsFacts.

Lemma length_append (s t : string) :
  String.length (s ++ t) = String.length s + String.length t.
Proof. induction s as [| c s IH]; cbn; [reflexivity | rewrite IH; reflexivity]. Qed.

Lemma append_inv_tail (s1 s2 t : string) : s1 ++ t = s2 ++ t -> s1 = s2.
Proof.
  revert s2. induction s1 as [| c s1 IH]; intros [| d s2] H; cbn in H.
  - reflexivity.
  - apply (f_equal String.length) in H. cbn in H. rewrite length_append in H. lia.
  - apply (f_equal String.length) in H. cbn in H. rewrite length_append in H. lia.
  - injection H as -> H. rewrite (IH s2 H). reflexivity.
Qed.

Lemma allBytes_app (p : ascii -> bool) (s t : string) :
  allBytes p (s ++ t) = allBytes p s && allBytes p t.
Proof.
  induction s as [| c s IH]; cbn; [reflexivity |].
  rewrite IH. apply andb_assoc.
Qed.

Lemma allBytes_In (p : ascii -> bool) (s : string) (c : ascii) :
  allBytes p s = true -> In c (list_ascii_of_string s) -> p c = true.
Proof.
  induction s as [| d s IH]; cbn; [intros _ [] |].
  intros H [-> | Hin]; apply andb_prop in H; destruct H as [Hd Hs].
  - exact Hd.
  - exact (IH Hs Hin).
Qed.

Lemma allBytes_weaken (p q : ascii -> bool) (s : string) :
  (forall c, p c = true -> q c = true) -> allBytes p s = true -> allBytes q s = true.
Proof.
  intros Hpq. induction s as [| c s IH]; cbn; [reflexivity |].
  intros H. apply andb_prop in H. destruct H as [Hc Hs].
  rewrite (Hpq c Hc), (IH Hs). reflexivity.
Qed.

(** What [escape] writes for one byte, in front of the rest. *)
Lemma escape_cons (c : ascii) (s : string) (mode : encoding) :
  escape (String c s) mode = escape (String c EmptyString) mode ++ escape s mode.
Proof.
  cbn [escape]. destruct mode.
  - destruct (shouldEscape c encodePathSegment); reflexivity.
  - destruct (c =? " ")%char; [reflexivity |].
    destruct (shouldEscape c encodeQueryComponent); reflexivity.
Qed.

Lemma QueryEscape_byte (c : ascii) :
  allBytes queryByte (escape (String c EmptyString) encodeQueryComponent) = true.
Proof. destruct c as [[] [] [] [] [] [] [] []]; reflexivity. Qed.

Lemma PathEscape_byte (c : ascii) :
  literalByte c = true ->
  allBytes paramByte (escape (String c EmptyString) encodePathSegment) = true.
Proof.
  destruct c as [[] [] [] [] [] [] [] []]; intros H; try reflexivity; discriminate H.
Qed.

Lemma QueryEscape_bytes (s : string) : allBytes queryByte (QueryEscape s) = true.
Proof.
  unfold QueryEscape. induction s as [| c s IH]; [reflexivity |].
  rewrite escape_cons, allBytes_app, QueryEscape_byte, IH. reflexivity.
Qed.

Lemma PathEscape_bytes (s : string) :
  allBytes literalByte s = true -> allBytes paramByte (PathEscape s) = true.
Proof.
  unfold PathEscape. induction s as [| c s IH]; [reflexivity |].
  cbn [allBytes]. intros H. apply andb_prop in H. destruct H as [Hc Hs].
  rewrite escape_cons, allBytes_app, (PathEscape_byte c Hc), (IH Hs). reflexivity.
Qed.

Lemma contactInfo_bytes (email : string) : allBytes literalByte (contactInfo email) = true.
Proof.
  unfold contactInfo. rewrite allBytes_app. cbn [allBytes andb].
  change (allBytes literalByte "{Contact+Email: ") with true.
  change (literalByte dquote) with true. cbn [andb].
  rewrite allBytes_app.
  rewrite (allBytes_weaken queryByte literalByte (QueryEscape email)).
  - reflexivity.
  - intros c Hc. unfold literalByte. rewrite Hc. reflexivity.
  - apply QueryEscape_bytes.
Qed.

(** X20: the contactinfo parameter is made of letters, digits, the marks
    [-_.~], percent, plus and colon only, whatever the email is; so no
    email can put an ampersand, an equals sign, a question mark, a hash,
    a slash, a space or a double quote into the request URL. *)
Theorem contactinfo_cannot_break_the_query (email : string) :
  allBytes paramByte (escapedContactInfo email) = true /\
  forall c, In c (list_ascii_of_string (escapedContactInfo email)) ->
    c <> "&"%char /\ c <> "="%char /\ c <> "?"%char /\ c <> "#"%char /\
    c <> "/"%char /\ c <> " "%char /\ c <> dquote.
Proof.
  assert (Hall : allBytes paramByte (escapedContactInfo email) = true).
  { unfold escapedContactInfo. apply PathEscape_bytes, contactInfo_bytes. }
  split; [exact Hall |].
  intros c Hin. pose proof (allBytes_In _ _ _ Hall Hin) as Hc.
  repeat match goal with |- _ /\ _ => split end;
    intros ->; discriminate Hc.
Qed.

Lemma decodedContactInfo_inj (e1 e2 : string) :
  decodedContactInfo e1 = decodedContactInfo e2 -> e1 = e2.
Proof.
  unfold decodedContactInfo. intros H.
  apply (append_inv_tail e1 e2 (String dquote "}")).
  cbn [append] in H. congruence.
Qed.

(** X21: two different emails never give the same contactinfo parameter. *)
Theorem escapedContactInfo_injective (e1 e2 : string) :
  escapedContactInfo e1 = escapedContactInfo e2 -> e1 = e2.
Proof.
  intros H. apply decodedContactInfo_inj.
  apply (f_equal PathUnescape) in H. unfold escapedContactInfo in H.
  rewrite !PathUnescape_PathEscape in H.
  assert (Hlit : contactInfo e1 = contactInfo e2) by congruence.
  apply (f_equal QueryUnescape) in Hlit.
  rewrite !QueryUnescape_contactInfo in Hlit. congruence.
Qed.

Lemma escapedContactInfo_injective_witness :
  escapedContactInfo "a+b@example.com" = escapedContactInfo "a+b@example.com" /\
  "a+b@example.com" = "a+b@example.com".
Proof.
  split; [reflexivity |].
  exact (escapedContactInfo_injective "a+b@example.com" "a+b@example.com" eq_refl).
Defined.

Section MoreControllerFacts.

Variable Net : Type.
Variable DoRequest :
  string -> string -> string -> Credentials -> Net -> (string * option goerror) * Net.
Variable Error : goerror -> string.

(** With a refresh token, [Subscribe] and [Unsubscribe] are
    [doListAction] at their action. *)
Lemma enabled_run (w : World Net) (email : string) :
  RefreshToken (zohoCredentials (controller w)) <> EmptyString ->
  runState (Subscribe DoRequest Error email) w
    = runState (doListAction DoRequest Error "listsubscribe" email) w /\
  runState (Unsubscribe DoRequest Error email) w
    = runState (doListAction DoRequest Error "listunsubscribe" email) w.
Proof.
  intros Hset. apply String.eqb_neq in Hset.
  unfold Subscribe, Unsubscribe, shouldSkip, receiver.
  cbn -[doListAction]. rewrite Hset. split; reflexivity.
Qed.

(** Running one action after another. *)
Lemma runState_then {A B : Type} (a : M Net A) (b : M Net B) (w : World Net) :
  runState (a ;; b)%monad w = runState b (snd (runState a w)).
Proof. cbn. destruct (runState a w). reflexivity. Qed.

(** X15: with a refresh token, each call of [Subscribe] or [Unsubscribe]
    makes exactly one request, whether it fails or not: a POST to the
    listsubscribe (listunsubscribe) URL with the cached access token and
    the credentials. *)
Theorem enabled_mode_makes_one_request (w : World Net) (email : string) :
  RefreshToken (zohoCredentials (controller w)) <> EmptyString ->
  requests (snd (runState (Subscribe DoRequest Error email) w))
    = (requests w ++ [listRequest (controller w) "listsubscribe" email])%list /\
  requests (snd (runState (Unsubscribe DoRequest Error email) w))
    = (requests w ++ [listRequest (controller w) "listunsubscribe" email])%list.
Proof.
  intros Hset. destruct (enabled_run w email Hset) as [-> ->].
  destruct (answer DoRequest (listRequest (controller w) "listsubscribe" email) (net w))
    as [[tok1 err1] n1] eqn:H1.
  destruct (answer DoRequest (listRequest (controller w) "listunsubscribe" email) (net w))
    as [[tok2 err2] n2] eqn:H2.
  rewrite (doListAction_run Net DoRequest Error w _ email tok1 err1 n1 H1).
  rewrite (doListAction_run Net DoRequest Error w _ email tok2 err2 n2 H2).
  split; reflexivity.
Qed.

(** X16: the access token a request returns is the one the next request
    sends: after [Subscribe] for one email, [Unsubscribe] for another
    posts with the token the first answer carried, also when the first
    request failed. *)
Theorem next_request_sends_returned_token (w : World Net) (e1 e2 tok : string)
    (err : option goerror) (n' : Net) :
  RefreshToken (zohoCredentials (controller w)) <> EmptyString ->
  answer DoRequest (listRequest (controller w) "listsubscribe" e1) (net w)
    = ((tok, err), n') ->
  requests (snd (runState (Subscribe DoRequest Error e1 ;;
                           Unsubscribe DoRequest Error e2)%monad w))
    = (requests w
       ++ [listRequest (controller w) "listsubscribe" e1;
           mkRequest "POST"
             (actionURL "listunsubscribe" (zohoListKey (controller w)) e2
                        (zohoTopicIds (controller w)))
             tok (zohoCredentials (controller w))])%list.
Proof.
  intros Hset Hans. rewrite runState_then.
  destruct (enabled_run w e1 Hset) as [-> _].
  rewrite (doListAction_run Net DoRequest Error w _ e1 tok err n' Hans).
  cbn [snd].
  match goal with |- context [runState _ ?w1] => set (w1' := w1) end.
  assert (Hset1 : RefreshToken (zohoCredentials (controller w1')) <> EmptyString)
    by exact Hset.
  destruct (enabled_run w1' e2 Hset1) as [_ ->].
  destruct (answer DoRequest (listRequest (controller w1') "listunsubscribe" e2) (net w1'))
    as [[tok2 err2] n2] eqn:H2.
  rewrite (doListAction_run Net DoRequest Error w1' _ e2 tok2 err2 n2 H2).
  subst w1'. cbn [snd requests controller]. unfold listRequest.
  cbn [zohoListKey zohoTopicIds zohoAccessToken zohoCredentials].
  rewrite <- app_assoc. reflexivity.
Qed.

(** X17: no call changes the list key, the topic ids or the credentials
    of the controller, in either mode and whatever the request answers;
    so a controller never moves between the disabled and the enabled
    mode. *)
Theorem configuration_is_never_changed (w : World Net) (email : string) :
  let keeps (w' : World Net) :=
    zohoListKey (controller w') = zohoListKey (controller w) /\
    zohoTopicIds (controller w') = zohoTopicIds (controller w) /\
    zohoCredentials (controller w') = zohoCredentials (controller w) in
  keeps (snd (runState (Subscribe DoRequest Error email) w)) /\
  keeps (snd (runState (Unsubscribe DoRequest Error email) w)).
Proof.
  intros keeps. subst keeps. cbv beta.
  destruct (String.eqb_spec (RefreshToken (zohoCredentials (controller w))) EmptyString)
    as [Hempty | Hset].
  - destruct (skipped_run Net DoRequest Error w Hempty email) as [-> ->].
    cbn. repeat split.
  - destruct (enabled_run w email Hset) as [-> ->].
    destruct (answer DoRequest (listRequest (controller w) "listsubscribe" email) (net w))
      as [[tok1 err1] n1] eqn:H1.
    destruct (answer DoRequest (listRequest (controller w) "listunsubscribe" email) (net w))
      as [[tok2 err2] n2] eqn:H2.
    rewrite (doListAction_run Net DoRequest Error w _ email tok1 err1 n1 H1).
    rewrite (doListAction_run Net DoRequest Error w _ email tok2 err2 n2 H2).
    cbn. repeat split.
Qed.

(** X18: [Subscribe] reports a not-implemented error exactly when the
    controller is disabled or the request itself failed with one; an
    enabled controller whose request fails otherwise returns an error
    that is not of that class, so a skip and a failure can be told
    apart. *)
Theorem not_implemented_means_skipped (w : World Net) (email tok : string)
    (err : option goerror) (n' : Net) :
  answer DoRequest (listRequest (controller w) "listsubscribe" email) (net w)
    = ((tok, err), n') ->
  (isNotImplemented (fst (runState (Subscribe DoRequest Error email) w)) = true <->
   RefreshToken (zohoCredentials (controller w)) = EmptyString \/
   isNotImplemented err = true).
Proof.
  intros Hans.
  destruct (String.eqb_spec (RefreshToken (zohoCredentials (controller w))) EmptyString)
    as [Hempty | Hset].
  - destruct (skipped_run Net DoRequest Error w Hempty email) as [-> _].
    cbn. split; [intros _; left; exact Hempty | reflexivity].
  - destruct (enabled_run w email Hset) as [-> _].
    rewrite (doListAction_run Net DoRequest Error w _ email tok err n' Hans).
    cbn [fst]. destruct err as [e |]; cbn.
    + split; [intros H; right; exact H | intros [H | H]; [contradiction | exact H]].
    + split; [discriminate | intros [H | H]; [contradiction | discriminate H]].
Qed.

(** X19: a controller built from a configuration without
    zoho.refresh-token skips: its first [Subscribe] returns the
    not-implemented error and makes no request.  Built from one with a
    refresh token, its first [Subscribe] posts to the listsubscribe URL
    of the configured list key and topic ids, with the configured
    zoho.access_token and the three configured credentials. *)
Theorem configuration_decides_the_mode (GetString : string -> string) (n : Net)
    (email : string) :
  let run := runState (Subscribe DoRequest Error email)
                      (mkWorld (NewMailingListsController GetString) [] [] n) in
  (GetString "zoho.refresh-token" = EmptyString ->
     fst run = Some (Propagated ErrNotImplemented EmptyString) /\
     requests (snd run) = []) /\
  (GetString "zoho.refresh-token" <> EmptyString ->
     requests (snd run) =
       [mkRequest "POST"
          (actionURL "listsubscribe" (GetString "zoho.list-key") email
                     (GetString "zoho.topic-ids"))
          (GetString "zoho.access_token")
          (mkCredentials (GetString "zoho.client-id") (GetString "zoho.client-secret")
                         (GetString "zoho.refresh-token"))]).
Proof.
  intros run. subst run.
  set (w := mkWorld (NewMailingListsController GetString) [] [] n).
  split.
  - intros Hempty.
    destruct (skipped_run Net DoRequest Error w Hempty email) as [-> _].
    split; reflexivity.
  - intros Hset.
    destruct (enabled_run w email Hset) as [-> _].
    destruct (answer DoRequest (listRequest (controller w) "listsubscribe" email) (net w))
      as [[tok err] n'] eqn:Hans.
    rewrite (doListAction_run Net DoRequest Error w _ email tok err n' Hans).
    reflexivity.
Qed.

End MoreControllerFacts.

(** The theorems at work in the sample world. *)

Lemma enabled_mode_makes_one_request_witness :
  RefreshToken (zohoCredentials (controller (Sample.world Sample.enabled 0)))
    <> EmptyString /\
  requests (snd (runState (Subscribe Sample.DoRequest Sample.Error "a@b.com")
                          (Sample.world Sample.enabled 0)))
    = [mkRequest "POST"
         "https://campaigns.zoho.com/api/v1.1/json/listsubscribe?resfmt=JSON&listkey=list-key&contactinfo=%7BContact+Email:%20%22a%2540b.com%22%7D&topic_id=t1,t2"
         "cached" (mkCredentials "id" "secret" "refresh")].
Proof.
  assert (Hset : RefreshToken (zohoCredentials (controller (Sample.world Sample.enabled 0)))
                 <> EmptyString) by discriminate.
  split; [exact Hset |].
  exact (proj1 (enabled_mode_makes_one_request Sample.Net Sample.DoRequest Sample.Error
                  (Sample.world Sample.enabled 0) "a@b.com" Hset)).
Defined.

Lemma next_request_sends_returned_token_witness :
  map reqAccessToken
    (requests (snd (runState (Subscribe Sample.DoRequest Sample.Error "a@b.com" ;;
                              Unsubscribe Sample.DoRequest Sample.Error "c@d.com")%monad
                             (Sample.world Sample.enabled 0))))
    = ["cached"; "token-1"].
Proof.
  assert (Hset : RefreshToken (zohoCredentials (controller (Sample.world Sample.enabled 0)))
                 <> EmptyString) by discriminate.
  rewrite (next_request_sends_returned_token Sample.Net Sample.DoRequest Sample.Error
             (Sample.world Sample.enabled 0) "a@b.com" "c@d.com" "token-1"
             (Some (ErrorString "Contact does not exist.")) 1 Hset eq_refl).
  reflexivity.
Defined.

Lemma not_implemented_means_skipped_witness :
  isNotImplemented
    (fst (runState (Subscribe Sample.DoRequest Sample.Error "a@b.com")
                   (Sample.world Sample.enabled 0))) = false.
Proof.
  destruct (isNotImplemented
              (fst (runState (Subscribe Sample.DoRequest Sample.Error "a@b.com")
                             (Sample.world Sample.enabled 0)))) eqn:H; [| reflexivity].
  apply (not_implemented_means_skipped Sample.Net Sample.DoRequest Sample.Error
           (Sample.world Sample.enabled 0) "a@b.com" "token-1"
           (Some (ErrorString "Contact does not exist.")) 1 eq_refl) in H.
  destruct H as [H | H]; discriminate H.
Defined.

Lemma configuration_decides_the_mode_witness :
  requests (snd (runState (Subscribe Sample.DoRequest Sample.Error "a@b.com")
                          (mkWorld (NewMailingListsController noZoho) [] [] 0))) = [] /\
  map reqURL
    (requests (snd (runState (Subscribe Sample.DoRequest Sample.Error "a@b.com")
                             (mkWorld (NewMailingListsController withZoho) [] [] 0))))
    = ["https://campaigns.zoho.com/api/v1.1/json/listsubscribe?resfmt=JSON&listkey=list-key&contactinfo=%7BContact+Email:%20%22a%2540b.com%22%7D&topic_id=t1,t2"].
Proof.
  split.
  - exact (proj2 (proj1 (configuration_decides_the_mode Sample.Net Sample.DoRequest
                           Sample.Error noZoho 0 "a@b.com") eq_refl)).
  - assert (Hset : withZoho "zoho.refresh-token" <> EmptyString) by discriminate.
    exact (f_equal (map reqURL)
             (proj2 (configuration_decides_the_mode Sample.Net Sample.DoRequest
                       Sample.Error withZoho 0 "a@b.com") Hset)).
Defined.

End MailingListsMoreFacts.

(* ===================================================================== *)
(** * More properties of the plan selector                                *)
(* ===================================================================== *)

Module PlanSelectorMoreFacts.

Import PlanSelector PlanSelectorFacts PlanSelectorUI.
Local Open Scope Z_scope.

(** The outcome of a present subscription, by the three tests. *)
Lemma outcome_cases (dateNow : Z) (s : Subscription) :
  (productID s = "free"%string /\ planSelectionOutcome dateNow (Some s) = buyPlan) \/
  (productID s <> "free"%string /\ expiredAsComputed dateNow s /\
   planSelectionOutcome dateNow (Some s) = buyPlan) \/
  (productID s <> "free"%string /\ ~ expiredAsComputed dateNow s /\
   planSelectionOutcome dateNow (Some s) =
     if (paymentProvider s =? "stripe")%string then updateSubscriptionToPlan
     else if ((paymentProvider s =? "appstore") || (paymentProvider s =? "playstore"))%string
          then cancelOnMobile
     else contactSupport).
Proof.
  destruct (String.eqb_spec (productID s) "free") as [Hfree | Hpaid].
  - left. split; [exact Hfree | apply outcome_free; exact Hfree].
  - right.
    destruct (Z.lt_ge_cases (toDouble (expiryTime s)) (toDouble (dateNow * 1000)))
      as [Hexp | Hlive].
    + left. split; [exact Hpaid |]. split; [exact Hexp | apply outcome_expired; exact Hexp].
    + right. split; [exact Hpaid |].
      assert (Hnot : ~ expiredAsComputed dateNow s) by (unfold expiredAsComputed; lia).
      split; [exact Hnot | apply outcome_running; assumption].
Qed.

Lemma buyPlan_inv_computed (dateNow : Z) (s : Subscription) :
  planSelectionOutcome dateNow (Some s) = buyPlan ->
  productID s = "free"%string \/ expiredAsComputed dateNow s.
Proof.
  intros Hbuy.
  destruct (outcome_cases dateNow s) as [[Hf _] | [[_ [He _]] | [_ [_ Hout]]]].
  - left. exact Hf.
  - right. exact He.
  - rewrite Hout in Hbuy.
    destruct (paymentProvider s =? "stripe")%string; [discriminate |].
    destruct ((paymentProvider s =? "appstore") || (paymentProvider s =? "playstore"))%string;
      discriminate.
Qed.

Lemma buyPlan_inv (dateNow : Z) (s : Subscription) :
  planSelectionOutcome dateNow (Some s) = buyPlan ->
  productID s = "free"%string \/ expired dateNow s.
Proof.
  intros Hbuy. destruct (buyPlan_inv_computed dateNow s Hbuy) as [Hf | He].
  - left. exact Hf.
  - right. exact (expiredAsComputed_expired dateNow s He).
Qed.

Lemma update_inv (dateNow : Z) (s : Subscription) :
  planSelectionOutcome dateNow (Some s) = updateSubscriptionToPlan ->
  productID s <> "free"%string /\ ~ expiredAsComputed dateNow s /\
  paymentProvider s = "stripe"%string.
Proof.
  intros Hupd.
  destruct (outcome_cases dateNow s) as [[_ Hout] | [[_ [_ Hout]] | [Hp [Hl Hout]]]];
    rewrite Hout in Hupd; try discriminate Hupd.
  split; [exact Hp | split; [exact Hl |]].
  destruct (String.eqb_spec (paymentProvider s) "stripe") as [Hs | _]; [exact Hs |].
  destruct ((paymentProvider s =? "appstore") || (paymentProvider s =? "playstore"))%string;
    discriminate Hupd.
Qed.

(** X1: the outcome is [buyPlan] exactly when there is no subscription,
    or the subscription is the free one, or its expiry time is before
    the current time as the code computes it; a paid subscription that
    is still running never gets [buyPlan].  As long as the current time
    in microseconds is between 0 and 2^53, the computed time is the
    exact one and the same holds with the exact comparison. *)
Theorem buyPlan_iff_no_running_paid_subscription
    (dateNow : Z) (subscription : option Subscription) :
  (planSelectionOutcome dateNow subscription = buyPlan <->
   subscription = None \/
   exists s, subscription = Some s /\
             (productID s = "free"%string \/ expiredAsComputed dateNow s)) /\
  (0 <= dateNow * 1000 <= 2 ^ 53 ->
   (planSelectionOutcome dateNow subscription = buyPlan <->
    subscription = None \/
    exists s, subscription = Some s /\
              (productID s = "free"%string \/ expired dateNow s))).
Proof.
  destruct subscription as [s |].
  - split; [| intros Hrange]; split.
    + intros Hbuy. right. exists s.
      split; [reflexivity | exact (buyPlan_inv_computed dateNow s Hbuy)].
    + intros [Hnone | [s' [Hs [Hfree | Hexp]]]].
      * discriminate Hnone.
      * injection Hs as <-. apply outcome_free. exact Hfree.
      * injection Hs as <-. apply outcome_expired. exact Hexp.
    + intros Hbuy. right. exists s.
      split; [reflexivity | exact (buyPlan_inv dateNow s Hbuy)].
    + intros [Hnone | [s' [Hs [Hfree | Hexp]]]].
      * discriminate Hnone.
      * injection Hs as <-. apply outcome_free. exact Hfree.
      * injection Hs as <-. apply outcome_expired.
        exact (expired_expiredAsComputed dateNow s Hrange Hexp).
  - split; [| intros _]; (split; [intros _; left; reflexivity | reflexivity]).
Qed.

Lemma buyPlan_iff_no_running_paid_subscription_witness :
  0 <= 1700000000001 * 1000 <= 2 ^ 53 /\
  expired 1700000000001 (mkSubscription "50gb_monthly" 1700000000000000 "stripe") /\
  planSelectionOutcome 1700000000001
    (Some (mkSubscription "50gb_monthly" 1700000000000000 "stripe")) = buyPlan.
Proof.
  assert (Hrange : 0 <= 1700000000001 * 1000 <= 2 ^ 53) by lia.
  assert (Hexp : expired 1700000000001
                   (mkSubscription "50gb_monthly" 1700000000000000 "stripe"))
    by (unfold expired; cbn; lia).
  split; [exact Hrange |]. split; [exact Hexp |].
  apply (proj2 (buyPlan_iff_no_running_paid_subscription 1700000000001
                  (Some (mkSubscription "50gb_monthly" 1700000000000000 "stripe")))
               Hrange).
  right. eexists. split; [reflexivity |]. right. exact Hexp.
Defined.

(** X2: the outcome is [updateSubscriptionToPlan] exactly for a
    subscription that is not the free one, is paid through stripe and
    whose expiry time is not before the current time as the code
    computes it; nobody else is offered an update.  As long as the
    current time in microseconds is between 0 and 2^53, the same holds
    with the exact comparison. *)
Theorem update_iff_running_stripe_subscription
    (dateNow : Z) (subscription : option Subscription) :
  (planSelectionOutcome dateNow subscription = updateSubscriptionToPlan <->
   exists s, subscription = Some s /\ productID s <> "free"%string /\
             ~ expiredAsComputed dateNow s /\ paymentProvider s = "stripe"%string) /\
  (0 <= dateNow * 1000 <= 2 ^ 53 ->
   (planSelectionOutcome dateNow subscription = updateSubscriptionToPlan <->
    exists s, subscription = Some s /\ productID s <> "free"%string /\
              ~ expired dateNow s /\ paymentProvider s = "stripe"%string)).
Proof.
  destruct subscription as [s |].
  - split; [| intros Hrange]; split.
    + intros Hupd. exists s. split; [reflexivity | exact (update_inv dateNow s Hupd)].
    + intros [s' [Hs [Hp [Hl Hstripe]]]]. injection Hs as <-.
      rewrite (outcome_running dateNow s Hp Hl), Hstripe. reflexivity.
    + intros Hupd. exists s. split; [reflexivity |].
      destruct (update_inv dateNow s Hupd) as [Hp [Hl Hstripe]].
      split; [exact Hp | split; [| exact Hstripe]].
      intros Hexp. apply Hl. exact (expired_expiredAsComputed dateNow s Hrange Hexp).
    + intros [s' [Hs [Hp [Hl Hstripe]]]]. injection Hs as <-.
      rewrite (outcome_active dateNow s Hp Hl), Hstripe. reflexivity.
  - split; [| intros _];
      (split; [discriminate | intros [s [Hs _]]; discriminate Hs]).
Qed.

Lemma update_iff_running_stripe_subscription_witness :
  0 <= 1700000000000 * 1000 <= 2 ^ 53 /\
  planSelectionOutcome 1700000000000
    (Some (mkSubscription "50gb_yearly" 1800000000000000 "stripe"))
    = updateSubscriptionToPlan.
Proof.
  assert (Hrange : 0 <= 1700000000000 * 1000 <= 2 ^ 53) by lia.
  split; [exact Hrange |].
  apply (proj2 (update_iff_running_stripe_subscription 1700000000000
                  (Some (mkSubscription "50gb_yearly" 1800000000000000 "stripe")))
               Hrange).
  eexists. split; [reflexivity |].
  split; [discriminate |]. split; [unfold expired; cbn; lia | reflexivity].
Defined.

(** X3: as the clock advances the outcome either stays what it was or
    becomes [buyPlan], and once it is [buyPlan] it stays [buyPlan]. *)
Theorem outcome_only_falls_back_to_buyPlan
    (dateNow dateLater : Z) (subscription : option Subscription) :
  dateNow <= dateLater ->
  (planSelectionOutcome dateLater subscription = planSelectionOutcome dateNow subscription \/
   planSelectionOutcome dateLater subscription = buyPlan) /\
  (planSelectionOutcome dateNow subscription = buyPlan ->
   planSelectionOutcome dateLater subscription = buyPlan).
Proof.
  intros Hle. destruct subscription as [s |]; [| split; [left |]; reflexivity].
  assert (Hmono : expiredAsComputed dateNow s -> expiredAsComputed dateLater s).
  { unfold expiredAsComputed. intros Hexp.
    pose proof (toDouble_mono (dateNow * 1000) (dateLater * 1000) ltac:(lia)). lia. }
  split.
  - destruct (outcome_cases dateLater s) as [[_ Hout] | [[_ [_ Hout]] | [Hp [Hl Hout]]]].
    + right. exact Hout.
    + right. exact Hout.
    + left. rewrite Hout. symmetry. apply outcome_running; [exact Hp | tauto].
  - intros Hbuy. destruct (buyPlan_inv_computed dateNow s Hbuy) as [Hfree | Hexp].
    + apply outcome_free. exact Hfree.
    + apply outcome_expired. exact (Hmono Hexp).
Qed.

Lemma outcome_only_falls_back_to_buyPlan_witness :
  (1700000000000 <= 1900000000000) /\
  planSelectionOutcome 1700000000000
    (Some (mkSubscription "50gb_yearly" 1800000000000000 "stripe"))
    = updateSubscriptionToPlan /\
  planSelectionOutcome 1900000000000
    (Some (mkSubscription "50gb_yearly" 1800000000000000 "stripe")) = buyPlan /\
  (planSelectionOutcome 1900000000000
     (Some (mkSubscription "50gb_yearly" 1800000000000000 "stripe"))
   = planSelectionOutcome 1700000000000
       (Some (mkSubscription "50gb_yearly" 1800000000000000 "stripe")) \/
   planSelectionOutcome 1900000000000
     (Some (mkSubscription "50gb_yearly" 1800000000000000 "stripe")) = buyPlan).
Proof.
  assert (Hle : 1700000000000 <= 1900000000000) by lia.
  split; [exact Hle |]. split; [reflexivity |]. split; [reflexivity |].
  exact (proj1 (outcome_only_falls_back_to_buyPlan 1700000000000 1900000000000
                  (Some (mkSubscription "50gb_yearly" 1800000000000000 "stripe")) Hle)).
Defined.

Local Close Scope Z_scope.

(** X4: with a plan period of month or year, choosing a period in the
    toggler makes it the plan period, clicking the selected button again
    (a null new period) keeps it, and the period stays month or year;
    toggling twice gives the period back. *)
Theorem toggler_selects_the_chosen_period (planPeriod newPeriod : string) :
  planPeriod = "month" \/ planPeriod = "year" ->
  newPeriod = "month" \/ newPeriod = "year" ->
  onChange planPeriod (Some newPeriod) = newPeriod /\
  onChange planPeriod None = planPeriod /\
  togglePeriod (togglePeriod planPeriod) = planPeriod /\
  (togglePeriod planPeriod = "month" \/ togglePeriod planPeriod = "year").
Proof.
  intros [-> | ->] [-> | ->]; cbn; repeat split; auto.
Qed.

Lemma toggler_selects_the_chosen_period_witness :
  onChange "month" (Some "year") = "year" /\ onChange "year" (Some "year") = "year".
Proof.
  split.
  - exact (proj1 (toggler_selects_the_chosen_period "month" "year"
                    (or_introl eq_refl) (or_intror eq_refl))).
  - exact (proj1 (toggler_selects_the_chosen_period "year" "year"
                    (or_intror eq_refl) (or_intror eq_refl))).
Defined.

Lemma rowPlan_planRows (f : Subscription -> Plan -> bool) (plans : list Plan)
    (planPeriod : string) (subscription : option Subscription) :
  map rowPlan (planRows f (Some plans) planPeriod subscription)
    = filter (fun plan => (period plan =? planPeriod)%string) plans.
Proof.
  unfold planRows. rewrite map_map. cbn [rowPlan]. apply map_id.
Qed.

Lemma listedPlans_app (xs ys : list PlansChild) :
  listedPlans (xs ++ ys) = (listedPlans xs ++ listedPlans ys)%list.
Proof. unfold listedPlans. apply flat_map_app. Qed.

Lemma listedPlans_rows (rows : list PlanRowProps) :
  listedPlans (map PlanRow rows) = map rowPlan rows.
Proof.
  induction rows as [| row rows IH]; [reflexivity |].
  cbn. f_equal. exact IH.
Qed.

(** The free plan row of [Plans], when it is there. *)
Lemma Plans_children (f : Subscription -> Plan -> bool) (g : Subscription -> bool)
    (d : PlansData) (planPeriod : string) (subscription : option Subscription)
    (hasAddOnBonus : bool) :
  exists free,
    Plans f g (Some d) planPeriod subscription hasAddOnBonus
      = (map PlanRow (planRows f (Some (plans d)) planPeriod subscription) ++ free)%list /\
    listedPlans free = [] /\
    (free = [] \/ exists fp, freePlan d = Some fp /\ free = [FreePlanRow (freePlanStorage fp)]) /\
    (free <> [] <->
     (forall s, subscription = Some s -> g s = false) /\
     hasAddOnBonus = false /\ freePlan d <> None).
Proof.
  unfold Plans. eexists. split; [reflexivity |].
  destruct subscription as [s |]; cbn [negb andb].
  - destruct (g s) eqn:Hg; cbn [negb andb].
    + split; [reflexivity |]. split; [left; reflexivity |].
      split; [intros H; contradiction |].
      intros [Hs _]. specialize (Hs s eq_refl). congruence.
    + destruct hasAddOnBonus; cbn [negb].
      * split; [reflexivity |]. split; [left; reflexivity |].
        split; [intros H; contradiction | intros [_ [H _]]; discriminate H].
      * destruct (freePlan d) as [fp |].
        -- split; [reflexivity |]. split; [right; exists fp; split; reflexivity |].
           split; [| intros _; discriminate].
           intros _. split; [| split; [reflexivity | discriminate]].
           intros s' Hs'. injection Hs' as <-. exact Hg.
        -- split; [reflexivity |]. split; [left; reflexivity |].
           split; [intros H; contradiction | intros [_ [_ H]]; contradiction].
  - destruct hasAddOnBonus; cbn [negb].
    + split; [reflexivity |]. split; [left; reflexivity |].
      split; [intros H; contradiction | intros [_ [H _]]; discriminate H].
    + destruct (freePlan d) as [fp |].
      * split; [reflexivity |]. split; [right; exists fp; split; reflexivity |].
        split; [| intros _; discriminate].
        intros _. split; [| split; [reflexivity | discriminate]].
        intros s' Hs'. discriminate Hs'.
      * split; [reflexivity |]. split; [left; reflexivity |].
        split; [intros H; contradiction | intros [_ [_ H]]; contradiction].
Qed.

(** X5: when every plan of the catalogue is monthly or yearly, each plan
    has its [PlanRow] under exactly one of the two periods: the plans of
    the monthly plan rows followed by those of the yearly plan rows are
    the catalogue, rearranged; no plan is lost and none is listed twice.
    The only other child [Plans] renders is the free plan row: at most
    one, after the plan rows, and there exactly when no subscription is
    active and paid, there is no add-on bonus and the plans data has a
    free plan. *)
Theorem every_plan_is_listed_under_its_period
    (isSubscriptionForPlan : Subscription -> Plan -> bool)
    (isSubscriptionActivePaid : Subscription -> bool)
    (plansData : PlansData) (subscription : option Subscription)
    (hasAddOnBonus : bool) :
  Forall (fun plan => period plan = "month" \/ period plan = "year") (plans plansData) ->
  Permutation
    (listedPlans (Plans isSubscriptionForPlan isSubscriptionActivePaid (Some plansData)
                        "month" subscription hasAddOnBonus)
     ++ listedPlans (Plans isSubscriptionForPlan isSubscriptionActivePaid (Some plansData)
                           "year" subscription hasAddOnBonus))
    (plans plansData) /\
  forall planPeriod, exists free,
    Plans isSubscriptionForPlan isSubscriptionActivePaid (Some plansData)
          planPeriod subscription hasAddOnBonus
      = (map PlanRow (planRows isSubscriptionForPlan (Some (plans plansData))
                               planPeriod subscription)
         ++ free)%list /\
    (free = [] \/
     exists fp, freePlan plansData = Some fp /\ free = [FreePlanRow (freePlanStorage fp)]) /\
    (free <> [] <->
     (forall s, subscription = Some s -> isSubscriptionActivePaid s = false) /\
     hasAddOnBonus = false /\ freePlan plansData <> None).
Proof.
  intros Hall. split.
  - destruct (Plans_children isSubscriptionForPlan isSubscriptionActivePaid plansData
                "month" subscription hasAddOnBonus) as [fm [-> [Hm _]]].
    destruct (Plans_children isSubscriptionForPlan isSubscriptionActivePaid plansData
                "year" subscription hasAddOnBonus) as [fy [-> [Hy _]]].
    rewrite !listedPlans_app, Hm, Hy, !app_nil_r, !listedPlans_rows, !rowPlan_planRows.
    induction Hall as [| plan rest Hp _ IH]; [constructor |].
    cbn [filter]. destruct Hp as [Hp | Hp]; rewrite Hp; cbn.
    + constructor. exact IH.
    + apply Permutation_sym, Permutation_cons_app, Permutation_sym. exact IH.
  - intros planPeriod.
    destruct (Plans_children isSubscriptionForPlan isSubscriptionActivePaid plansData
                planPeriod subscription hasAddOnBonus) as [free [Heq [_ [Hshape Hiff]]]].
    exists free. split; [exact Heq | split; [exact Hshape | exact Hiff]].
Qed.

Lemma every_plan_is_listed_under_its_period_witness :
  Permutation
    (listedPlans (Plans Sample.isSubscriptionForPlan Sample.isSubscriptionActivePaid
                        (Some Sample.plansData) "month" None false)
     ++ listedPlans (Plans Sample.isSubscriptionForPlan Sample.isSubscriptionActivePaid
                           (Some Sample.plansData) "year" None false))
    [Sample.plan200; Sample.plan50] /\
  Plans Sample.isSubscriptionForPlan Sample.isSubscriptionActivePaid
        (Some Sample.plansData) "month" None false
    = [PlanRow (mkPlanRowProps Sample.plan50 false false);
       FreePlanRow (10 * 1024 * 1024 * 1024)].
Proof.
  split; [| reflexivity].
  apply (every_plan_is_listed_under_its_period Sample.isSubscriptionForPlan
           Sample.isSubscriptionActivePaid Sample.plansData None false).
  constructor; [right; reflexivity |].
  constructor; [left; reflexivity | constructor].
Defined.

Section HandlePlanSelectFacts.

Variable t : string -> string.
Variable errorDialogAttributes : string -> MiniDialogAttributes.
Variable redirects : string -> string -> bool.

(** X6: selecting a plan sends the user to the payments app directly only
    to buy: the redirect has the action buy and the stripe id of the
    selected plan, and it happens only when there is no subscription or
    the subscription is free or expired. *)
Theorem direct_redirect_only_buys (dateNow : Z) (subscription : option Subscription)
    (plan : Plan) (sid act : string) :
  In (redirectToPaymentsApp sid act) (handlePlanSelect t errorDialogAttributes redirects dateNow subscription plan) ->
  act = "buy" /\ stripeID plan = Some sid /\
  (subscription = None \/
   exists s, subscription = Some s /\
             (productID s = "free" \/ expired dateNow s)).
Proof.
  unfold handlePlanSelect.
  destruct (planSelectionOutcome dateNow subscription) eqn:Hout.
  - intros Hin.
    assert (Hwho : subscription = None \/
                   exists s, subscription = Some s /\
                             (productID s = "free" \/ expired dateNow s)).
    { destruct subscription as [s |]; [right | left; reflexivity].
      exists s. split; [reflexivity | exact (buyPlan_inv dateNow s Hout)]. }
    destruct Hin as [Hin | Hin]; [discriminate Hin |].
    destruct (stripeID plan) as [sid' |].
    + destruct Hin as [Hin | Hin].
      * injection Hin as -> ->. auto.
      * destruct (redirects sid' "buy"); [destruct Hin |].
        destruct Hin as [Hin | [Hin | []]]; discriminate Hin.
    + destruct Hin as [Hin | [Hin | []]]; discriminate Hin.
  - intros [Hin | []]. discriminate Hin.
  - intros [Hin | []]. discriminate Hin.
  - intros [Hin | []]. discriminate Hin.
Qed.

(** X7: a user whose paid subscription is still running and is not paid
    through stripe (an app store, or anything else) gets exactly one
    dialog when selecting a plan: it has nothing to continue with and no
    cancel button, and neither a redirect nor a change of the loading
    flag happens. *)
Theorem store_subscriber_only_sees_a_dialog (dateNow : Z) (s : Subscription)
    (plan : Plan) (loading : bool) :
  productID s <> "free" ->
  ~ expired dateNow s ->
  paymentProvider s <> "stripe" ->
  exists attributes,
    handlePlanSelect t errorDialogAttributes redirects dateNow (Some s) plan = [showMiniDialog attributes] /\
    action (continue_ attributes) = None /\
    cancel attributes = Some false /\
    loadingAfter loading (handlePlanSelect t errorDialogAttributes redirects dateNow (Some s) plan) = loading.
Proof.
  intros Hpaid Hlive Hother. unfold handlePlanSelect.
  rewrite (outcome_active dateNow s Hpaid Hlive).
  apply String.eqb_neq in Hother. rewrite Hother.
  destruct ((paymentProvider s =? "appstore") || (paymentProvider s =? "playstore"))%string;
    eexists; repeat split.
Qed.

(** X8: when the outcome is [buyPlan], a purchase that cannot start (the
    plan has no stripe id, or the payments app cannot be reached) ends
    with the loading flag off and the purchase-failed dialog, and without
    a stripe id no redirect is attempted; a purchase that starts leaves
    the loading flag on and shows no dialog. *)
Theorem failed_purchase_switches_loading_off (dateNow : Z)
    (subscription : option Subscription) (plan : Plan) (loading : bool) :
  planSelectionOutcome dateNow subscription = buyPlan ->
  (stripeID plan = None ->
     handlePlanSelect t errorDialogAttributes redirects dateNow subscription plan = setLoading true :: purchaseFailed t errorDialogAttributes /\
     loadingAfter loading (handlePlanSelect t errorDialogAttributes redirects dateNow subscription plan) = false) /\
  (forall sid, stripeID plan = Some sid -> redirects sid "buy" = false ->
     handlePlanSelect t errorDialogAttributes redirects dateNow subscription plan
       = setLoading true :: redirectToPaymentsApp sid "buy" :: purchaseFailed t errorDialogAttributes /\
     loadingAfter loading (handlePlanSelect t errorDialogAttributes redirects dateNow subscription plan) = false) /\
  (forall sid, stripeID plan = Some sid -> redirects sid "buy" = true ->
     handlePlanSelect t errorDialogAttributes redirects dateNow subscription plan
       = [setLoading true; redirectToPaymentsApp sid "buy"] /\
     loadingAfter loading (handlePlanSelect t errorDialogAttributes redirects dateNow subscription plan) = true).
Proof.
  intros Hbuy. unfold handlePlanSelect. rewrite Hbuy.
  split; [| split].
  - intros ->. split; reflexivity.
  - intros sid -> ->. split; reflexivity.
  - intros sid -> ->. split; reflexivity.
Qed.

End HandlePlanSelectFacts.

Lemma direct_redirect_only_buys_witness :
  In (redirectToPaymentsApp "50gb_monthly" "buy")
     (handlePlanSelect Sample.t Sample.errorDialogAttributes Sample.redirects
        1700000000000 None Sample.plan50) /\
  stripeID Sample.plan50 = Some "50gb_monthly".
Proof.
  assert (Hin : In (redirectToPaymentsApp "50gb_monthly" "buy")
                   (handlePlanSelect Sample.t Sample.errorDialogAttributes Sample.redirects
                      1700000000000 None Sample.plan50)).
  { right. left. reflexivity. }
  split; [exact Hin |].
  exact (proj1 (proj2 (direct_redirect_only_buys Sample.t Sample.errorDialogAttributes
                         Sample.redirects 1700000000000 None Sample.plan50
                         "50gb_monthly" "buy" Hin))).
Defined.

Lemma store_subscriber_only_sees_a_dialog_witness :
  exists attributes,
    handlePlanSelect Sample.t Sample.errorDialogAttributes Sample.redirects 1700000000000
      (Some (mkSubscription "50gb_yearly" 1800000000000000 "appstore")) Sample.plan200
      = [showMiniDialog attributes] /\
    title attributes = "cancel_subscription_on_mobile".
Proof.
  destruct (store_subscriber_only_sees_a_dialog Sample.t Sample.errorDialogAttributes
              Sample.redirects 1700000000000
              (mkSubscription "50gb_yearly" 1800000000000000 "appstore")
              Sample.plan200 false)
    as [attributes [Heq _]].
  - discriminate.
  - unfold expired. cbn. lia.
  - discriminate.
  - exists attributes. split; [exact Heq |].
    cbv in Heq. injection Heq as <-. reflexivity.
Defined.

Lemma failed_purchase_switches_loading_off_witness :
  loadingAfter false
    (handlePlanSelect Sample.t Sample.errorDialogAttributes Sample.redirects
       1700000000000 None
       (mkPlan "offline" 1 "$1" "month" (Some "offline") None None)) = false /\
  loadingAfter false
    (handlePlanSelect Sample.t Sample.errorDialogAttributes Sample.redirects
       1700000000000 None Sample.plan50) = true.
Proof.
  split.
  - exact (proj2 (proj1 (proj2 (failed_purchase_switches_loading_off
                                  Sample.t Sample.errorDialogAttributes Sample.redirects
                                  1700000000000 None
                                  (mkPlan "offline" 1 "$1" "month" (Some "offline") None None)
                                  false eq_refl))
                          "offline" eq_refl eq_refl)).
  - exact (proj2 (proj2 (proj2 (failed_purchase_switches_loading_off
                                  Sample.t Sample.errorDialogAttributes Sample.redirects
                                  1700000000000 None Sample.plan50 false eq_refl))
                          "50gb_monthly" eq_refl eq_refl)).
Defined.

End PlanSelectorMoreFacts.

(* ===================================================================== *)
(** * Properties of the import service                                    *)
(* ===================================================================== *)

Module ImportServiceFacts.

Import ImportService.
Local Open Scope list_scope.

(** The loop of [updatePendingUploads] only adds to the paths it was
    given: one path for a file, two for a live photo. *)
Lemma pushPaths_length (fs : list FileWithCollection) (acc paths : list string) :
  pushPaths fs acc = inr paths ->
  List.length paths
    = (List.length acc + List.length fs + List.length (filter isLivePhoto fs))%nat.
Proof.
  revert acc. induction fs as [| f fs IH]; intros acc H; cbn in H.
  - injection H as <-. cbn. lia.
  - cbn [filter List.length]. destruct (isLivePhoto f).
    + destruct (livePhotoAssets f) as [assets |]; [| discriminate H].
      rewrite (IH _ H), length_app. cbn. lia.
    + destruct (file f) as [ef |]; [| discriminate H].
      rewrite (IH _ H), length_app. cbn. lia.
Qed.

(** Without live photos the loop computes what the [map] of
    [setToUploadFiles] computes, behind the paths it was given. *)
Lemma pushPaths_mapPaths (fs : list FileWithCollection) (acc : list string) :
  Forall (fun f => isLivePhoto f = false) fs ->
  pushPaths fs acc =
    match mapPaths fs with
    | inl e => inl e
    | inr paths => inr (acc ++ paths)
    end.
Proof.
  intros Hall. revert acc. induction Hall as [| f fs Hf _ IH]; intros acc; cbn.
  - rewrite app_nil_r. reflexivity.
  - rewrite Hf. destruct (file f) as [ef |]; [| reflexivity].
    rewrite IH. destruct (mapPaths fs) as [e | paths]; [reflexivity |].
    rewrite <- app_assoc. reflexivity.
Qed.

Lemma mapPaths_length (fs : list FileWithCollection) (paths : list string) :
  mapPaths fs = inr paths -> List.length paths = List.length fs.
Proof.
  revert paths. induction fs as [| f fs IH]; intros paths H; cbn in H.
  - injection H as <-. reflexivity.
  - destruct (file f) as [ef |]; [| discriminate H].
    destruct (mapPaths fs) as [e | ps]; [discriminate H |].
    injection H as <-. cbn. rewrite (IH ps eq_refl). reflexivity.
Qed.

Lemma mapPaths_throws (fs : list FileWithCollection) (f : FileWithCollection) :
  In f fs -> file f = None -> mapPaths fs = inl TypeError.
Proof.
  induction fs as [| g fs IH]; intros Hin Hnone; [destruct Hin |].
  cbn. destruct Hin as [-> | Hin].
  - rewrite Hnone. reflexivity.
  - destruct (file g); [| reflexivity].
    rewrite (IH Hin Hnone). reflexivity.
Qed.

Lemma pushPaths_throws (fs : list FileWithCollection) (f : FileWithCollection)
    (acc : list string) :
  In f fs ->
  (isLivePhoto f = true /\ livePhotoAssets f = None) \/
  (isLivePhoto f = false /\ file f = None) ->
  pushPaths fs acc = inl TypeError.
Proof.
  revert acc. induction fs as [| g fs IH]; intros acc Hin Hbad; [destruct Hin |].
  cbn. destruct Hin as [-> | Hin].
  - destruct Hbad as [[-> ->] | [-> ->]]; reflexivity.
  - destruct (isLivePhoto g).
    + destruct (livePhotoAssets g); [apply IH; assumption | reflexivity].
    + destruct (file g); [apply IH; assumption | reflexivity].
Qed.

Section ServiceFacts.

Variable Electron : Type.
Variable showUploadFilesDialogAPI : Electron -> (JsError + list ElectronFile) * Electron.
Variable showUploadDirsDialogAPI : Electron -> (JsError + list ElectronFile) * Electron.
Variable getPendingUploadsAPI : Electron -> (JsError + PendingUploads) * Electron.
Variable setToUploadFilesAPI : list string -> Electron -> (JsError + unit) * Electron.
Variable setToUploadCollectionAPI : option string -> Electron -> (JsError + unit) * Electron.

(** X9: outside a browser, without [window.ElectronAPIs], or with a
    bridge that lacks [getPendingUploads], the service is inert: every
    method returns (undefined where a value is expected), makes no call
    on the bridge, logs nothing and leaves the Electron side alone. *)
Theorem without_bridge_nothing_happens (runningInBrowser : bool)
    (windowElectronAPIs : Bridge) (cs : list Call) (errs : list (JsError * string))
    (e : Electron) (fs : list FileWithCollection) (collections : list Collection) :
  runningInBrowser = false \/ windowElectronAPIs = noBridge \/
  windowElectronAPIs = bridge false ->
  let w := mkWorld (constructorFlag runningInBrowser windowElectronAPIs) cs errs e in
  showUploadFilesDialog Electron showUploadFilesDialogAPI w = (inr None, w) /\
  showUploadDirsDialog Electron showUploadDirsDialogAPI w = (inr None, w) /\
  getPendingUploads Electron getPendingUploadsAPI w = (inr None, w) /\
  setToUploadFiles Electron setToUploadFilesAPI setToUploadCollectionAPI fs collections w
    = (inr tt, w) /\
  updatePendingUploads Electron setToUploadFilesAPI fs w = (inr tt, w).
Proof.
  intros Hno w.
  assert (Hflag : constructorFlag runningInBrowser windowElectronAPIs = false).
  { destruct Hno as [-> | [-> | ->]]; [reflexivity | |];
      destruct runningInBrowser; reflexivity. }
  subst w. rewrite Hflag. repeat split.
Qed.

(** X10: [getPendingUploads] never throws.  When the bridge throws, it
    logs the error once and answers with no files and a null collection
    name; when the bridge answers, it passes the answer on and logs
    nothing. *)
Theorem getPendingUploads_never_throws (w : World Electron) :
  (exists r, fst (getPendingUploads Electron getPendingUploadsAPI w) = inr r) /\
  (allElectronAPIsExist w = true ->
   (forall err e', getPendingUploadsAPI (electron w) = (inl err, e') ->
      getPendingUploads Electron getPendingUploadsAPI w =
        (inr (Some (mkPendingUploads [] None)),
         mkWorld true (calls w ++ [getPendingUploadsCall])
                 (loggedErrors w ++ [(err, "failed to getPendingUploads ")]) e')) /\
   (forall pending e', getPendingUploadsAPI (electron w) = (inr pending, e') ->
      getPendingUploads Electron getPendingUploadsAPI w =
        (inr (Some pending),
         mkWorld true (calls w ++ [getPendingUploadsCall]) (loggedErrors w) e'))).
Proof.
  unfold getPendingUploads, tryCatch, bindM, checkAllElectronAPIsExists, callBridge,
    logError, retM.
  split.
  - destruct (allElectronAPIsExist w); [| eexists; reflexivity].
    destruct (getPendingUploadsAPI (electron w)) as [[err | pending] e'];
      eexists; reflexivity.
  - intros Hflag. rewrite Hflag. split.
    + intros err e' ->. cbn. rewrite Hflag. reflexivity.
    + intros pending e' ->. cbn. rewrite Hflag. reflexivity.
Qed.

(** X11: [updatePendingUploads] hands the bridge one path for each file
    and two for each live photo, in one call: the number of paths is the
    number of files plus the number of live photos. *)
Theorem updatePendingUploads_counts_paths (w : World Electron)
    (fs : list FileWithCollection) (paths : list string) :
  allElectronAPIsExist w = true ->
  pushPaths fs [] = inr paths ->
  calls (snd (updatePendingUploads Electron setToUploadFilesAPI fs w))
    = calls w ++ [setToUploadFilesCall paths] /\
  List.length paths = (List.length fs + List.length (filter isLivePhoto fs))%nat /\
  (List.length fs <= List.length paths <= 2 * List.length fs)%nat.
Proof.
  intros Hflag Hpaths.
  pose proof (pushPaths_length fs [] paths Hpaths) as Hlen. cbn in Hlen.
  pose proof (filter_length_le isLivePhoto fs) as Hle.
  split; [| split; [exact Hlen | lia]].
  unfold updatePendingUploads, bindM, checkAllElectronAPIsExists, ofResult, callBridge.
  rewrite Hflag, Hpaths.
  destruct (setToUploadFilesAPI paths (electron w)) as [r e']. reflexivity.
Qed.

(** X12: for files none of which is a live photo, [updatePendingUploads]
    and [setToUploadFiles] hand the same paths to the bridge (and throw
    on the same inputs). *)
Theorem both_methods_store_the_same_paths (w : World Electron)
    (fs : list FileWithCollection) (collections : list Collection) :
  allElectronAPIsExist w = true ->
  Forall (fun f => isLivePhoto f = false) fs ->
  pushPaths fs [] = mapPaths fs /\
  forall paths, mapPaths fs = inr paths ->
    calls (snd (updatePendingUploads Electron setToUploadFilesAPI fs w))
      = calls w ++ [setToUploadFilesCall paths] /\
    exists rest,
      calls (snd (setToUploadFiles Electron setToUploadFilesAPI setToUploadCollectionAPI
                    fs collections w))
        = calls w ++ setToUploadFilesCall paths :: rest.
Proof.
  intros Hflag Hall.
  assert (Heq : pushPaths fs [] = mapPaths fs).
  { rewrite (pushPaths_mapPaths fs [] Hall). destruct (mapPaths fs); reflexivity. }
  split; [exact Heq |].
  intros paths Hpaths. split.
  - unfold updatePendingUploads, bindM, checkAllElectronAPIsExists, ofResult, callBridge.
    rewrite Hflag, Heq, Hpaths.
    destruct (setToUploadFilesAPI paths (electron w)) as [r e']. reflexivity.
  - unfold setToUploadFiles, bindM, checkAllElectronAPIsExists, ofResult, callBridge.
    rewrite Hflag, Hpaths. cbn [electron].
    destruct (setToUploadFilesAPI paths (electron w)) as [[err | []] e'].
    + exists []. reflexivity.
    + cbn [electron calls].
      destruct (setToUploadCollectionAPI (uploadCollectionName collections) e') as [r e''].
      eexists. cbn [snd calls]. rewrite <- app_assoc. reflexivity.
Qed.

(** X13: [setToUploadFiles] stores the paths of all files in one call and
    then the collection name, which is the name of the collection when
    there is exactly one and undefined when there are none or several. *)
Theorem setToUploadFiles_names_a_single_collection (w : World Electron)
    (fs : list FileWithCollection) (collections : list Collection)
    (paths : list string) (e' : Electron) :
  allElectronAPIsExist w = true ->
  mapPaths fs = inr paths ->
  setToUploadFilesAPI paths (electron w) = (inr tt, e') ->
  calls (snd (setToUploadFiles Electron setToUploadFilesAPI setToUploadCollectionAPI
                fs collections w))
    = calls w ++
      [setToUploadFilesCall paths;
       setToUploadCollectionCall
         match collections with
         | [c] => Some (name c)
         | _ => None
         end] /\
  List.length paths = List.length fs.
Proof.
  intros Hflag Hpaths Hfiles.
  split; [| exact (mapPaths_length fs paths Hpaths)].
  unfold setToUploadFiles, bindM, checkAllElectronAPIsExists, ofResult, callBridge.
  rewrite Hflag, Hpaths. cbn [electron]. rewrite Hfiles. cbn [electron calls].
  assert (Hname : uploadCollectionName collections =
                  match collections with [c] => Some (name c) | _ => None end).
  { destruct collections as [| c [| d rest]]; reflexivity. }
  rewrite Hname.
  destruct (setToUploadCollectionAPI _ e') as [r e''].
  cbn [snd calls]. rewrite <- app_assoc. reflexivity.
Qed.

(** X14: nothing is stored when a path cannot be read.  If some file has
    no [file], [setToUploadFiles] throws a [TypeError] before any call on
    the bridge; if some live photo has no assets, or some other file no
    [file], [updatePendingUploads] does. *)
Theorem unreadable_file_stores_nothing (w : World Electron)
    (fs : list FileWithCollection) (collections : list Collection)
    (f : FileWithCollection) :
  allElectronAPIsExist w = true ->
  In f fs ->
  (file f = None ->
   setToUploadFiles Electron setToUploadFilesAPI setToUploadCollectionAPI fs collections w
     = (inl TypeError, w)) /\
  ((isLivePhoto f = true /\ livePhotoAssets f = None) \/
   (isLivePhoto f = false /\ file f = None) ->
   updatePendingUploads Electron setToUploadFilesAPI fs w = (inl TypeError, w)).
Proof.
  intros Hflag Hin. split.
  - intros Hnone.
    unfold setToUploadFiles, bindM, checkAllElectronAPIsExists, ofResult.
    rewrite Hflag, (mapPaths_throws fs f Hin Hnone). reflexivity.
  - intros Hbad.
    unfold updatePendingUploads, bindM, checkAllElectronAPIsExists, ofResult.
    rewrite Hflag, (pushPaths_throws fs f [] Hin Hbad). reflexivity.
Qed.

End ServiceFacts.

(** The theorems at work on the sample Electron side. *)

Lemma without_bridge_nothing_happens_witness :
  getPendingUploads Sample.Electron Sample.getPendingUploadsAPI
    (mkWorld (constructorFlag true (bridge false)) [] [] 0)
    = (inr None, mkWorld false [] [] 0) /\
  updatePendingUploads Sample.Electron Sample.setToUploadFilesAPI
    [Sample.photo; Sample.livePhoto] (mkWorld (constructorFlag true (bridge false)) [] [] 0)
    = (inr tt, mkWorld false [] [] 0).
Proof.
  destruct (without_bridge_nothing_happens Sample.Electron Sample.dialogAPI Sample.dialogAPI
              Sample.getPendingUploadsAPI Sample.setToUploadFilesAPI
              Sample.setToUploadCollectionAPI true (bridge false) [] [] 0
              [Sample.photo; Sample.livePhoto] []
              (or_intror (or_intror eq_refl)))
    as [_ [_ [Hget [_ Hupd]]]].
  split; [exact Hget | exact Hupd].
Defined.

Lemma getPendingUploads_never_throws_witness :
  getPendingUploads Sample.Electron Sample.getPendingUploadsAPI (Sample.desktop 0)
    = (inr (Some (mkPendingUploads [] None)),
       mkWorld true [getPendingUploadsCall]
               [(BridgeError "store is locked", "failed to getPendingUploads ")] 1).
Proof.
  exact (proj1 (proj2 (getPendingUploads_never_throws Sample.Electron
                         Sample.getPendingUploadsAPI (Sample.desktop 0)) eq_refl)
               (BridgeError "store is locked") 1 eq_refl).
Defined.

Lemma updatePendingUploads_counts_paths_witness :
  calls (snd (updatePendingUploads Sample.Electron Sample.setToUploadFilesAPI
                [Sample.photo; Sample.livePhoto] (Sample.desktop 0)))
    = [setToUploadFilesCall ["/photos/a.jpg"; "/photos/b.heic"; "/photos/b.mov"]] /\
  List.length ["/photos/a.jpg"; "/photos/b.heic"; "/photos/b.mov"]%string = (2 + 1)%nat.
Proof.
  destruct (updatePendingUploads_counts_paths Sample.Electron Sample.setToUploadFilesAPI
              (Sample.desktop 0) [Sample.photo; Sample.livePhoto]
              ["/photos/a.jpg"; "/photos/b.heic"; "/photos/b.mov"]%string
              eq_refl eq_refl)
    as [Hcalls [Hlen _]].
  split; [exact Hcalls | exact Hlen].
Defined.

Lemma both_methods_store_the_same_paths_witness :
  pushPaths [Sample.photo; Sample.photo] [] = mapPaths [Sample.photo; Sample.photo] /\
  calls (snd (updatePendingUploads Sample.Electron Sample.setToUploadFilesAPI
                [Sample.photo; Sample.photo] (Sample.desktop 0)))
    = [setToUploadFilesCall ["/photos/a.jpg"; "/photos/a.jpg"]].
Proof.
  assert (Hall : Forall (fun f => isLivePhoto f = false) [Sample.photo; Sample.photo]).
  { constructor; [reflexivity |]. constructor; [reflexivity | constructor]. }
  destruct (both_methods_store_the_same_paths Sample.Electron Sample.setToUploadFilesAPI
              Sample.setToUploadCollectionAPI (Sample.desktop 0)
              [Sample.photo; Sample.photo] [] eq_refl Hall)
    as [Heq Hcalls].
  split; [exact Heq |].
  exact (proj1 (Hcalls ["/photos/a.jpg"; "/photos/a.jpg"]%string eq_refl)).
Defined.

Lemma setToUploadFiles_names_a_single_collection_witness :
  calls (snd (setToUploadFiles Sample.Electron Sample.setToUploadFilesAPI
                Sample.setToUploadCollectionAPI [Sample.photo] [mkCollection "Trip"]
                (Sample.desktop 0)))
    = [setToUploadFilesCall ["/photos/a.jpg"]; setToUploadCollectionCall (Some "Trip")] /\
  calls (snd (setToUploadFiles Sample.Electron Sample.setToUploadFilesAPI
                Sample.setToUploadCollectionAPI [Sample.photo]
                [mkCollection "Trip"; mkCollection "Home"] (Sample.desktop 0)))
    = [setToUploadFilesCall ["/photos/a.jpg"]; setToUploadCollectionCall None].
Proof.
  split.
  - exact (proj1 (setToUploadFiles_names_a_single_collection Sample.Electron
                    Sample.setToUploadFilesAPI Sample.setToUploadCollectionAPI
                    (Sample.desktop 0) [Sample.photo] [mkCollection "Trip"]
                    ["/photos/a.jpg"]%string 1 eq_refl eq_refl eq_refl)).
  - exact (proj1 (setToUploadFiles_names_a_single_collection Sample.Electron
                    Sample.setToUploadFilesAPI Sample.setToUploadCollectionAPI
                    (Sample.desktop 0) [Sample.photo]
                    [mkCollection "Trip"; mkCollection "Home"]
                    ["/photos/a.jpg"]%string 1 eq_refl eq_refl eq_refl)).
Defined.

Lemma unreadable_file_stores_nothing_witness :
  setToUploadFiles Sample.Electron Sample.setToUploadFilesAPI
    Sample.setToUploadCollectionAPI [Sample.photo; Sample.livePhoto] [] (Sample.desktop 0)
    = (inl TypeError, Sample.desktop 0).
Proof.
  exact (proj1 (unreadable_file_stores_nothing Sample.Electron Sample.setToUploadFilesAPI
                  Sample.setToUploadCollectionAPI (Sample.desktop 0)
                  [Sample.photo; Sample.livePhoto] [] Sample.livePhoto
                  eq_refl (or_intror (or_introl eq_refl)))
               eq_refl).
Defined.

End ImportServiceFacts.
